(** * SpeakEasy-AI: the vocabulary pipeline, model restore policy and
    request boundary, embedded from the Python sources.

    - [trainer/data/data_utils.py]: tokenizer, vocabulary builder, vocabulary
      loader, sentence and file encoders, [prepare_data];
    - [trainer/model/model_utils.py]: [create_model];
    - [server.py]: [initialize] and [generate_response].

    Conventions of the embedding.
    - A Python [str] is a [string] of 8-bit characters; [str.isspace] is the
      one of byte strings (codes 9 to 13 and 32) and [\d] is [0-9].
    - A Python [int] is a [Z].
    - A [dict] keyed by strings is a [gmap string _] where only lookups
      matter, and an association list in insertion order where the code
      iterates over it.
    - The file store is flat: a path is mapped to the content of the file.
      [gfile.Exists] is membership; reading a missing file raises, and a
      file read by lines comes without its carriage returns; a file opened
      for writing is created (or emptied) by its first [write], not by the
      open, and later writes append to it.
    - Functions that print, touch files or raise live in the monad [M]. *)

From Stdlib Require Import ZArith Ascii.
From stdpp Require Import base gmap strings list pretty sorting.

Local Open Scope Z_scope.

(** ** Python strings *)

Module Py.

Definition newline : ascii := "010"%char.
Definition dquote : ascii := "034"%char.
Definition nl : string := String newline "".

(** [str.isspace] on a single byte. *)
Definition isspace (c : ascii) : bool :=
  let n := N_of_ascii c in
  ((9 <=? n)%N && (n <=? 13)%N) || (n =? 32)%N.

(** What [\d] matches. *)
Definition isdigit (c : ascii) : bool :=
  let n := N_of_ascii c in (48 <=? n)%N && (n <=? 57)%N.

Fixpoint lstrip (s : string) : string :=
  match s with
  | String c s' => if isspace c then lstrip s' else s
  | EmptyString => EmptyString
  end.

Fixpoint rstrip (s : string) : string :=
  match s with
  | String c s' =>
      match rstrip s' with
      | EmptyString => if isspace c then EmptyString else String c EmptyString
      | r => String c r
      end
  | EmptyString => EmptyString
  end.

(** [s.strip()] *)
Definition strip (s : string) : string := rstrip (lstrip s).

Definition starts_word (s : string) : bool :=
  match s with
  | String c _ => negb (isspace c)
  | EmptyString => false
  end.

(** [s.split()]: the maximal runs of characters that are not whitespace. *)
Fixpoint split (s : string) : list string :=
  match s with
  | EmptyString => []
  | String c s' =>
      if isspace c then split s'
      else if starts_word s' then
        match split s' with
        | w :: ws => String c w :: ws
        | [] => [String c EmptyString]
        end
      else String c EmptyString :: split s'
  end.

(** The characters of a string, as [for c in s] yields them. *)
Fixpoint chars (s : string) : list string :=
  match s with
  | EmptyString => []
  | String c s' => String c EmptyString :: chars s'
  end.

(** [sep.join(l)] *)
Fixpoint join (sep : string) (l : list string) : string :=
  match l with
  | [] => ""
  | [w] => w
  | w :: ws => w +:+ sep +:+ join sep ws
  end.

(** The concatenation of the strings written to a file one after another. *)
Definition concat (l : list string) : string := foldr String.append "" l.

(** The string cut after each line feed: every piece ends with its line
    feed, the last one possibly without. *)
Fixpoint lines (s : string) : list string :=
  match s with
  | EmptyString => []
  | String c s' =>
      if Ascii.eqb c newline then nl :: lines s'
      else match lines s' with
           | l :: ls => String c l :: ls
           | [] => [String c EmptyString]
           end
  end.

(** [l[i]]: a negative index counts from the end; [None] is [IndexError]. *)
Definition getitem {A} (l : list A) (i : Z) : option A :=
  let n := Z.of_nat (length l) in
  if (0 <=? i) && (i <? n) then l !! Z.to_nat i
  else if (- n <=? i) && (i <? 0) then l !! Z.to_nat (n + i)
  else None.

(** [l[:n]] *)
Definition slice_to {A} (l : list A) (n : Z) : list A :=
  if 0 <=? n then take (Z.to_nat n) l
  else take (Z.to_nat (Z.of_nat (length l) + n)) l.

(** [dict(pairs)]: a later pair overrides an earlier one with the same key. *)
Definition dict {V} (pairs : list (string * V)) : gmap string V :=
  foldl (fun m kv => <[kv.1 := kv.2]> m) ∅ pairs.

(** [enumerate(l)], from a start index. *)
Fixpoint enumerate_from {A} (i : Z) (l : list A) : list (Z * A) :=
  match l with
  | [] => []
  | x :: l' => (i, x) :: enumerate_from (i + 1) l'
  end.

Definition enumerate {A} (l : list A) : list (Z * A) := enumerate_from 0 l.

End Py.

(** ** data_utils.py: constants and the tokenizer *)

Definition _PAD : string := "_PAD".
Definition _GO : string := "_GO".
Definition _EOS : string := "_EOS".
Definition _UNK : string := "_UNK".
Definition _START_VOCAB : list string := [_PAD; _GO; _EOS; _UNK].

Definition PAD_ID : Z := 0.
Definition GO_ID : Z := 1.
Definition EOS_ID : Z := 2.
Definition UNK_ID : Z := 3.

Definition sentinel : string := "breakHerePlease".

(** The character class of [_WORD_SPLIT]: the full stop, the comma, the
    exclamation and question marks, the double and single quotes, the colon,
    the semicolon and the two parentheses. *)
Definition word_split_char (c : ascii) : bool :=
  bool_decide (c ∈ [Py.dquote; "."; ","; "!"; "?"; "'"; ":"; ";"; ")"; "("]%char).

(** [re.split(_WORD_SPLIT, s)]: the pattern is one capturing group over one
    character, so the result alternates the pieces between separators with
    the separators themselves; pieces may be empty. *)
Fixpoint re_split_WORD_SPLIT (s : string) : list string :=
  match s with
  | EmptyString => [""]
  | String c s' =>
      if word_split_char c
      then "" :: String c EmptyString :: re_split_WORD_SPLIT s'
      else match re_split_WORD_SPLIT s' with
           | w :: ws => String c w :: ws
           | [] => [String c EmptyString]
           end
  end.

(** [re.sub(_DIGIT_RE, repl, s)] for a replacement without escapes. *)
Fixpoint re_sub_DIGIT_RE (repl s : string) : string :=
  match s with
  | EmptyString => EmptyString
  | String c s' =>
      if Py.isdigit c then repl +:+ re_sub_DIGIT_RE repl s'
      else String c (re_sub_DIGIT_RE repl s')
  end.

(** What a tokenizer returns: [basic_tokenizer] returns a list of words, or
    the stripped sentence itself (a [str]) for the sentinel. *)
Inductive words :=
  | WStr (s : string)
  | WList (l : list string).

(** [for w in words] *)
Definition iter_words (ws : words) : list string :=
  match ws with
  | WStr s => Py.chars s
  | WList l => l
  end.

Definition basic_tokenizer (sentence : string) : words :=
  if decide (Py.strip sentence = sentinel) then WStr (Py.strip sentence)
  else
    let words := mbind re_split_WORD_SPLIT (Py.split (Py.strip sentence)) in
    WList (filter (fun w => w ≠ "") words).

(** ** Effects: the file store, the standard output and exceptions *)

Record world := World {
  files : gmap string string;
  stdout : list string
}.

Inductive exn :=
  | ValueError (args : list string)
  | NotFoundError (path : string)
  | TypeError (msg : string).

Inductive outcome (A : Type) :=
  | Return (a : A)
  | Raise (e : exn).
Arguments Return {A} a.
Arguments Raise {A} e.

(** A computation runs in a world and leaves a world, also when it raises:
    what was printed or written before the exception stays. *)
Definition M (A : Type) : Type := world -> outcome A * world.

#[global] Instance M_ret : MRet M := fun A a w => (Return a, w).
#[global] Instance M_bind : MBind M := fun A B f m w =>
  match m w with
  | (Return a, w') => f a w'
  | (Raise e, w') => (Raise e, w')
  end.

Definition ret {A} (a : A) : M A := mret a.

Definition raise {A} (e : exn) : M A := fun w => (Raise e, w).

(** [print(s)] *)
Definition print (s : string) : M unit := fun w =>
  (Return tt, World (files w) (stdout w ++ [s])).

(** [gfile.Exists(path)] *)
Definition gfile_Exists (path : string) : M bool := fun w =>
  (Return (bool_decide (is_Some (files w !! path))), w).

(** [gfile.GFile(path, mode="r")], read to the end. *)
Definition gfile_read (path : string) : M string := fun w =>
  match files w !! path with
  | Some content => (Return content, w)
  | None => (Raise (NotFoundError path), w)
  end.

(** The string without its carriage returns. *)
Fixpoint drop_cr (s : string) : string :=
  match s with
  | EmptyString => EmptyString
  | String c s' =>
      if Ascii.eqb c "013" then drop_cr s' else String c (drop_cr s')
  end.

(** [f.readlines()] and [for line in f] on a [GFile]: the reader drops every
    carriage return and ends a line after its line feed; a last line without
    line feed is yielded if it is not empty. *)
Definition gfile_lines (content : string) : list string :=
  Py.lines (drop_cr content).

(** [f.write(s)] on a [gfile.GFile(path, mode="w")]. Opening does nothing
    to the store: the first write of the file object ([written] is false)
    creates the file or empties an old one, a later write appends. *)
Definition gfile_write (path : string) (written : bool) (s : string) : M unit :=
  fun w =>
    let old := if written then default "" (files w !! path) else "" in
    (Return tt, World (<[path := old +:+ s]> (files w)) (stdout w)).

Definition skip : M unit := ret tt.

(** [for x in l: f.write(g(x))] on a file object for [path]. *)
Fixpoint write_each {A} (path : string) (g : A -> string) (l : list A)
    (written : bool) : M unit :=
  match l with
  | [] => skip
  | x :: l' => gfile_write path written (g x) ;; write_each path g l' true
  end.

(** ** create_vocabulary *)

(** The counting dictionary, in insertion order: [vocab[word] += 1] for a
    known word, [vocab[word] = 1] for a new one. *)
Fixpoint count_word (word : string) (vocab : list (string * Z))
  : list (string * Z) :=
  match vocab with
  | [] => [(word, 1)]
  | (k, n) :: rest =>
      if decide (k = word) then (k, n + 1) :: rest
      else (k, n) :: count_word word rest
  end.

(** Line 65: the word that is counted for the token [w]. *)
Definition counted_word (normalize_digits : bool) (w : string) : string :=
  if normalize_digits then re_sub_DIGIT_RE "100" w else w.

Fixpoint insert_desc (x : string * Z) (l : list (string * Z))
  : list (string * Z) :=
  match l with
  | [] => [x]
  | y :: l' => if x.2 <? y.2 then y :: insert_desc x l' else x :: l
  end.

(** [sorted(vocab, key=vocab.get, reverse=True)] with each key's count: the
    sort is stable, so words of equal count keep the order of the dict. *)
Definition sorted_desc (vocab : list (string * Z)) : list (string * Z) :=
  foldr insert_desc [] vocab.

(** Lines 59 to 69: the loop over the lines of the data file. *)
Fixpoint count_lines (normalize_digits : bool) (lines : list string)
    (counter : Z) (vocab : list (string * Z)) : M (list (string * Z)) :=
  match lines with
  | [] => ret vocab
  | line :: rest =>
      let counter := counter + 1 in
      (if decide (counter `mod` 100000 = 0)
       then print ("  processing line " +:+ pretty counter) else skip) ;;
      let tokens := basic_tokenizer line in
      let vocab :=
        foldl (fun v w => count_word (counted_word normalize_digits w) v)
              vocab (iter_words tokens) in
      count_lines normalize_digits rest counter vocab
  end.

Definition create_vocabulary (vocabulary_path data_path : string)
    (max_vocabulary_size : Z) (normalize_digits : bool) : M unit :=
  present ← gfile_Exists vocabulary_path;
  if negb present then
    print ("Creating vocabulary " +:+ vocabulary_path +:+
           " from data " +:+ data_path) ;;
    content ← gfile_read data_path;
    vocab ← count_lines normalize_digits (gfile_lines content) 0 [];
    let vocab_list := _START_VOCAB ++ (sorted_desc vocab).*1 in
    write_each (vocabulary_path +:+ "complete")
      (fun wn : string * Z => wn.1 +:+ ":" +:+ pretty wn.2 +:+ Py.nl)
      (sorted_desc vocab) false ;;
    let vocab_list :=
      if Z.of_nat (length vocab_list) >? max_vocabulary_size
      then Py.slice_to vocab_list max_vocabulary_size else vocab_list in
    write_each vocabulary_path (fun w => w +:+ Py.nl) vocab_list false
  else skip.

(** ** initialize_vocabulary *)

Definition initialize_vocabulary (vocabulary_path : string)
  : M (gmap string Z * list string) :=
  present ← gfile_Exists vocabulary_path;
  if (present : bool) then
    content ← gfile_read vocabulary_path;
    let rev_vocab := gfile_lines content in
    let rev_vocab := Py.strip <$> rev_vocab in
    let vocab := Py.dict ((fun yx => (yx.2, yx.1)) <$> Py.enumerate rev_vocab) in
    ret (vocab, rev_vocab)
  else raise (ValueError ["Vocabulary file %s not found."; vocabulary_path]).

(** ** sentence_to_token_ids *)

(** What callers pass as [tokenizer]: [None], a function, or (from
    [data_to_token_ids]) a Boolean. *)
Inductive tokenizer_arg :=
  | TokNone
  | TokBool (b : bool)
  | TokFun (f : string -> words).

Definition truthy (t : tokenizer_arg) : bool :=
  match t with
  | TokNone => false
  | TokBool b => b
  | TokFun _ => true
  end.

(** [tokenizer(sentence)] *)
Definition call (t : tokenizer_arg) (sentence : string) : M words :=
  match t with
  | TokFun f => ret (f sentence)
  | TokBool _ => raise (TypeError "'bool' object is not callable")
  | TokNone => raise (TypeError "'NoneType' object is not callable")
  end.

(** An element of the returned list: an id, or the sentinel string. *)
Inductive token_id :=
  | Id (i : Z)
  | Lit (s : string).

(** [str(tok)] *)
Definition str (t : token_id) : string :=
  match t with
  | Id i => pretty i
  | Lit s => s
  end.

(** What [print] shows for a list of integers. *)
Definition repr_ints (l : list Z) : string :=
  "[" +:+ Py.join ", " (pretty <$> l) +:+ "]".

#[global] Instance words_eq_dec : EqDecision words.
Proof. solve_decision. Defined.

Definition sentence_to_token_ids (sentence : string)
    (vocabulary : gmap string Z) (tokenizer : tokenizer_arg)
    (normalize_digits : bool) : M (list token_id) :=
  words ← (if truthy tokenizer then call tokenizer sentence
           else ret (basic_tokenizer sentence));
  if decide (words = WStr sentinel) then ret [Lit sentinel]
  else if negb normalize_digits then
    let ids := (fun w => default UNK_ID (vocabulary !! w)) <$> iter_words words in
    print (repr_ints ids) ;;
    ret (Id <$> ids)
  else
    ret (Id <$> ((fun w => default UNK_ID (vocabulary !! re_sub_DIGIT_RE "0" w))
                    <$> iter_words words)).

(** ** data_to_token_ids *)

(** Lines 154 to 159: the loop over the lines of the data file. Note the
    third positional argument of [sentence_to_token_ids]. [written] tells
    whether the file object of the target has written before. *)
Fixpoint encode_lines (target_path : string) (vocab : gmap string Z)
    (normalize_digits : bool) (lines : list string) (counter : Z)
    (written : bool) : M unit :=
  match lines with
  | [] => skip
  | line :: rest =>
      let counter := counter + 1 in
      (if decide (counter `mod` 100000 = 0)
       then print ("  tokenizing line " +:+ pretty counter) else skip) ;;
      token_ids ← sentence_to_token_ids line vocab (TokBool normalize_digits) true;
      gfile_write target_path written
        (Py.join " " (str <$> token_ids) +:+ Py.nl) ;;
      encode_lines target_path vocab normalize_digits rest counter true
  end.

Definition data_to_token_ids (data_path target_path vocabulary_path : string)
    (normalize_digits : bool) : M unit :=
  present ← gfile_Exists target_path;
  if negb present then
    print ("Tokenizing data in " +:+ data_path) ;;
    '(vocab, _) ← initialize_vocabulary vocabulary_path;
    content ← gfile_read data_path;
    encode_lines target_path vocab normalize_digits (gfile_lines content) 0 false
  else skip.

(** ** prepare_data *)

Fixpoint ends_with_sep (s : string) : bool :=
  match s with
  | EmptyString => false
  | String c EmptyString => Ascii.eqb c "/"
  | String _ s' => ends_with_sep s'
  end.

(** [os.path.join(a, p)] on a POSIX system. *)
Definition os_path_join (a p : string) : string :=
  if String.prefix "/" p then p
  else if decide (a = "") then a +:+ p
  else if ends_with_sep a then a +:+ p
  else a +:+ "/" +:+ p.

(** The calls leave the digit flags at their defaults: [True] for the
    builder, [False] for the file encoder. *)
Definition prepare_data (data_dir : string) (vocabulary_size : Z)
  : M (string * string * string) :=
  let train_path := data_dir +:+ ("/TRAIN_" +:+ pretty vocabulary_size) in
  let dev_path := data_dir +:+ ("/VALIDATION_" +:+ pretty vocabulary_size) in
  let vocab_path := os_path_join data_dir ("vocab" +:+ pretty vocabulary_size) in
  create_vocabulary vocab_path train_path vocabulary_size true ;;
  let train_ids_path := train_path +:+ (".ids" +:+ pretty vocabulary_size) in
  data_to_token_ids train_path train_ids_path vocab_path false ;;
  let dev_ids_path := dev_path +:+ (".ids" +:+ pretty vocabulary_size) in
  data_to_token_ids dev_path dev_ids_path vocab_path false ;;
  ret (train_ids_path, dev_ids_path, vocab_path).

(** ** model_utils.py *)

Module ModelUtils.

(** [runtime_variables.params], as far as [create_model] reads it; the
    sizes and rates only reach the constructor of the model. *)
Record Params := {
  buckets : bool;
  restore_model : option string;
  train_dir : string;
  log_dir : string
}.

(** [if params.restore_model]: [None] and the empty string are falsy. *)
Definition configured (restore_model : option string) : option string :=
  match restore_model with
  | Some path => if decide (path = "") then None else Some path
  | None => None
  end.

(** The object that [Seq2SeqModel(...)] builds: bucketed or of one fixed
    sentence length, for training or for inference only. *)
Record Model := {
  bucketed : bool;
  forward_only : bool
}.

(** What the calls into TensorFlow do to the session, in order. *)
Inductive tf_op :=
  | SaverRestore (path : string)
  | FileWriter (log_dir : string)
  | InitAllVariables.

Section session.

(** The values of the parameters of a model. *)
Context {weights : Type}.

(** What lies outside the program: the checkpoint state of a directory
    ([tf.train.get_checkpoint_state], the path of its latest checkpoint),
    the paths that exist ([gfile.Exists]), the parameters that
    [saver.restore] finds at a path ([None]: the restore raises), and the
    parameters that the initializers of the model draw. *)
Record Env := {
  get_checkpoint_state : string -> option string;
  path_exists : string -> bool;
  saved : string -> option weights;
  drawn : weights
}.

Record Session := {
  variables : option weights;
  ops : list tf_op
}.

Definition TF (A : Type) : Type := Session -> outcome A * Session.

(** [model.saver.restore(session, path)] *)
Definition saver_restore (env : Env) (path : string) : TF unit := fun s =>
  match saved env path with
  | Some ws => (Return tt, Build_Session (Some ws) (ops s ++ [SaverRestore path]))
  | None => (Raise (NotFoundError path),
             Build_Session (variables s) (ops s ++ [SaverRestore path]))
  end.

(** [tf.summary.FileWriter(params.log_dir, ...)] *)
Definition file_writer (log_dir : string) : TF unit := fun s =>
  (Return tt, Build_Session (variables s) (ops s ++ [FileWriter log_dir])).

(** [session.run(tf.initialize_all_variables())] *)
Definition initialize_all_variables (env : Env) : TF unit := fun s =>
  (Return tt, Build_Session (Some (drawn env)) (ops s ++ [InitAllVariables])).

Definition then_return {A} (m : TF unit) (a : A) : TF A := fun s =>
  match m s with
  | (Return _, s') => (Return a, s')
  | (Raise e, s') => (Raise e, s')
  end.

(** The messages that the function prints are left out. *)
Definition create_model (params : Params) (env : Env) (forward_only : bool)
  : TF Model :=
  let model :=
    if buckets params then Build_Model true forward_only
    else Build_Model false forward_only in
  let ckpt := get_checkpoint_state env (train_dir params) in
  match configured (restore_model params) with
  | Some path => then_return (saver_restore env path) model
  | None =>
      fun s =>
        match file_writer (log_dir params) s with
        | (Return _, s1) =>
            match ckpt with
            | Some model_checkpoint_path =>
                if path_exists env model_checkpoint_path
                then then_return (saver_restore env model_checkpoint_path) model s1
                else then_return (initialize_all_variables env) model s1
            | None => then_return (initialize_all_variables env) model s1
            end
        | (Raise e, s1) => (Raise e, s1)
        end
  end.

End session.

End ModelUtils.

(** ** server.py *)

Module Server.

#[local] Unset Elimination Schemes.

(** A parsed JSON value. *)
Inductive jvalue :=
  | JNull
  | JBool (b : bool)
  | JNum (z : Z)
  | JStr (s : string)
  | JArr (l : list jvalue)
  | JObj (fields : list (string * jvalue)).

#[local] Set Elimination Schemes.

(** The body of a request, as [request.json] sees it: not JSON at all
    ([None]), JSON that does not parse (the property raises), or a value. *)
Inductive body :=
  | NotJson
  | BadJson
  | Json (v : jvalue).

(** The class of an exception, as [sys.exc_info()[0]] gives it. *)
Inductive exc_class :=
  | HTTPException (status : Z)
  | PyTypeError
  | PyKeyError
  | RespondError.

(** [trainer.model.chat_bot.ChatBot], which is not part of these sources: an
    object with a [respond] method, which returns a string or raises
    ([None]). An instance is truthy. *)
Record ChatBot := {
  respond : jvalue -> option string
}.

(** How a view function ends: it returns a response, it leaves with an
    [abort(status)], or another exception leaves it. *)
Inductive result :=
  | Response (content : option string) (status : Z)
  | Aborted (status : Z)
  | Unhandled (e : exc_class).

(** The status that the framework sends for a result. *)
Definition status_of (r : result) : Z :=
  match r with
  | Response _ status => status
  | Aborted status => status
  | Unhandled _ => 500
  end.

(** [initialize()] on the global [Marvin], with the object that
    [ChatBot()] builds. What the functions of this module print is left
    out. *)
Definition initialize (bot : ChatBot) (Marvin : option ChatBot)
  : option ChatBot :=
  match Marvin with
  | None => Some bot
  | Some loaded => Some loaded
  end.

(** Truth value of a parsed body. *)
Definition jtruthy (v : jvalue) : bool :=
  match v with
  | JNull => false
  | JBool b => b
  | JNum z => negb (z =? 0)
  | JStr s => negb (bool_decide (s = ""))
  | JArr l => match l with [] => false | _ => true end
  | JObj fields => match fields with [] => false | _ => true end
  end.

(** [p in s] for two strings. *)
Fixpoint contains (p s : string) : bool :=
  String.prefix p s ||
  match s with
  | String _ s' => contains p s'
  | EmptyString => false
  end.

Definition is_message (v : jvalue) : bool :=
  match v with
  | JStr s => bool_decide (s = "message")
  | _ => false
  end.

(** The value of a key in a parsed object: the last one given wins. *)
Fixpoint field (key : string) (fields : list (string * jvalue))
  : option jvalue :=
  match fields with
  | [] => None
  | (k, v) :: rest =>
      match field key rest with
      | Some v' => Some v'
      | None => if decide (k = key) then Some v else None
      end
  end.

(** ['message' in v]; [None] is the TypeError of a value that is no
    container. *)
Definition has_message (v : jvalue) : option bool :=
  match v with
  | JObj fields => Some (bool_decide (is_Some (field "message" fields)))
  | JArr l => Some (existsb is_message l)
  | JStr s => Some (contains "message" s)
  | JNull | JBool _ | JNum _ => None
  end.

(** The body of the [try] of [generate_response]: the response, or the class
    of the exception that the bare [except] catches. *)
Definition try_respond (bot : ChatBot) (b : body) : result + exc_class :=
  match b with
  | BadJson => inr (HTTPException 400)
  | NotJson => inr (HTTPException 400)
  | Json v =>
      if negb (jtruthy v) then inr (HTTPException 400)
      else match has_message v with
           | None => inr PyTypeError
           | Some false => inr (HTTPException 400)
           | Some true =>
               match v with
               | JObj fields =>
                   match field "message" fields with
                   | Some msg =>
                       match respond bot msg with
                       | Some response => inl (Response (Some response) 200)
                       | None => inr RespondError
                       end
                   | None => inr PyKeyError
                   end
               | _ => inr PyTypeError
               end
           end
  end.

(** [generate_response()]. The [abort(418)] comes before the [try], so it
    leaves the view. In the handler, [jsonify] is given the class of the
    exception, which no encoder serializes: its TypeError leaves the view. *)
Definition generate_response (Marvin : option ChatBot) (b : body) : result :=
  match Marvin with
  | None => Aborted 418
  | Some bot =>
      match try_respond bot b with
      | inl response => response
      | inr _ => Unhandled PyTypeError
      end
  end.

(** What happens to the process: the loading thread finishes, or a request
    is served. *)
Inductive event :=
  | Loaded (bot : ChatBot)
  | Request (b : body).

(** The results of the requests among the events, in order. *)
Fixpoint serve (events : list event) (Marvin : option ChatBot) : list result :=
  match events with
  | [] => []
  | Loaded bot :: rest => serve rest (initialize bot Marvin)
  | Request b :: rest => generate_response Marvin b :: serve rest Marvin
  end.

End Server.

(** ** Definitions for the statements *)

Fixpoint has_digit (s : string) : bool :=
  match s with
  | EmptyString => false
  | String c s' => Py.isdigit c || has_digit s'
  end.

Fixpoint occurs (c : ascii) (s : string) : bool :=
  match s with
  | EmptyString => false
  | String d s' => Ascii.eqb c d || occurs c s'
  end.

(** The counts after the lines, without the progress messages. *)
Definition counted (normalize_digits : bool) (lines : list string)
    (vocab : list (string * Z)) : list (string * Z) :=
  foldl (fun v line =>
           foldl (fun v w => count_word (counted_word normalize_digits w) v)
                 v (iter_words (basic_tokenizer line)))
        vocab lines.

(** The list that line 70 builds and lines 74 and 75 cut. *)
Definition vocab_list_of (vocab : list (string * Z)) (max_vocabulary_size : Z)
  : list string :=
  let vocab_list := _START_VOCAB ++ (sorted_desc vocab).*1 in
  if Z.of_nat (length vocab_list) >? max_vocabulary_size
  then Py.slice_to vocab_list max_vocabulary_size else vocab_list.

Definition corpus_world : world :=
  World {[ "data" := "a b a 12" +:+ Py.nl +:+ "c a9, b" +:+ Py.nl ]} [].

Definition vocab_of (rev_vocab : list string) : gmap string Z :=
  Py.dict ((fun yx : Z * string => (yx.2, yx.1)) <$> Py.enumerate rev_vocab).

(** The encoding of a line under digit normalization: every token is
    looked up with each digit replaced by "0"; the sentinel passes. *)
Definition encode_normalized (vocab : gmap string Z) (line : string)
  : list token_id :=
  if decide (Py.strip line = sentinel) then [Lit sentinel]
  else Id <$> ((fun t => default UNK_ID (vocab !! re_sub_DIGIT_RE "0" t))
                 <$> iter_words (basic_tokenizer line)).

(** The line that is written for a line of the data file. *)
Definition ids_line (vocab : gmap string Z) (line : string) : string :=
  Py.join " " (str <$> encode_normalized vocab line) +:+ Py.nl.

Definition prepared_world : world :=
  World {[ "data" := "a b a 12" +:+ Py.nl +:+ "c a9, b" +:+ Py.nl;
           "vocab" := "_PAD" +:+ Py.nl +:+ "_GO" +:+ Py.nl +:+ "_EOS" +:+ Py.nl
                      +:+ "_UNK" +:+ Py.nl +:+ "a" +:+ Py.nl +:+ "12" +:+ Py.nl ]} [].

(** No character of the string is whitespace. *)
Fixpoint spaceless (s : string) : bool :=
  match s with
  | EmptyString => true
  | String c s' => negb (Py.isspace c) && spaceless s'
  end.

(** The calls that set the parameters of the model. *)
Definition sets_parameters (op : ModelUtils.tf_op) : bool :=
  match op with
  | ModelUtils.SaverRestore _ | ModelUtils.InitAllVariables => true
  | ModelUtils.FileWriter _ => false
  end.

(** A checkpoint directory with a latest checkpoint that exists, and one
    saved model. *)
Definition sample_env : @ModelUtils.Env string :=
  ModelUtils.Build_Env
    (fun dir => if decide (dir = "train") then Some "train/ckpt-7" else None)
    (fun path => bool_decide (path = "train/ckpt-7"))
    (fun path => if decide (path = "train/ckpt-7") then Some "step 7" else None)
    "fresh".

(** ** Further definitions for the statements *)

(** The store after a file object for [path] has written the chunks: with
    no chunk the store is as it was. *)
Definition written_file (path : string) (chunks : list string)
    (fs : gmap string string) : gmap string string :=
  match chunks with
  | [] => fs
  | _ => <[path := Py.concat chunks]> fs
  end.

(** The string without its whitespace characters. *)
Fixpoint remove_ws (s : string) : string :=
  match s with
  | EmptyString => EmptyString
  | String c s' => if Py.isspace c then remove_ws s' else String c (remove_ws s')
  end.

(** Every character of the string is whitespace. *)
Fixpoint all_space (s : string) : bool :=
  match s with
  | EmptyString => true
  | String c s' => Py.isspace c && all_space s'
  end.

(** No character of the string is in the class of [_WORD_SPLIT]. *)
Fixpoint split_free (s : string) : bool :=
  match s with
  | EmptyString => true
  | String c s' => negb (word_split_char c) && split_free s'
  end.

(** No character of the string is a line break. *)
Fixpoint newline_free (s : string) : bool :=
  match s with
  | EmptyString => true
  | String c s' => negb (Ascii.eqb c Py.newline) && newline_free s'
  end.

(** A piece of a fragment: a word without punctuation of the split class,
    or one such character. *)
Definition piece (p : string) : Prop :=
  split_free p = true \/ exists c, word_split_char c = true /\ p = String c "".

(** The shape of a token: not empty, no whitespace, and either one
    punctuation character or a word without any. *)
Definition token_shape (t : string) : Prop :=
  t <> "" /\ spaceless t = true /\ piece t.

(** The words that the builder counts, in the order it meets them. *)
Definition corpus_words (normalize_digits : bool) (lines : list string)
  : list string :=
  lines ≫= (fun line =>
    counted_word normalize_digits <$> iter_words (basic_tokenizer line)).

(** How often [k] is in the list. *)
Definition occurrences (k : string) (l : list string) : nat :=
  length (filter (fun x => x = k) l).

(** [vocab.get(k)] on the counting dictionary. *)
Fixpoint count_of (k : string) (vocab : list (string * Z)) : option Z :=
  match vocab with
  | [] => None
  | (k', n) :: rest => if decide (k' = k) then Some n else count_of k rest
  end.

(** One step of the counting loop. *)
Definition count_step (v : list (string * Z)) (w : string) : list (string * Z) :=
  count_word w v.

(** The order of the ranking: by falling count. *)
Definition by_count_desc (x y : string * Z) : Prop := y.2 <= x.2.

(** The bodies of the requests among the events. *)
Fixpoint requests_of (events : list Server.event) : list Server.body :=
  match events with
  | [] => []
  | Server.Loaded _ :: rest => requests_of rest
  | Server.Request b :: rest => b :: requests_of rest
  end.

(** ** Running computations *)

Lemma run_bind {A B} (m : M A) (f : A -> M B) (w : world) :
  (m ≫= f) w =
  match m w with
  | (Return a, w') => f a w'
  | (Raise e, w') => (Raise e, w')
  end.
Proof. reflexivity. Qed.

Lemma exists_true (path : string) (w : world) (c : string) :
  files w !! path = Some c -> gfile_Exists path w = (Return true, w).
Proof.
  intros H. unfold gfile_Exists. rewrite H.
  rewrite bool_decide_eq_true_2; [reflexivity | eauto].
Qed.

Lemma exists_false (path : string) (w : world) :
  files w !! path = None -> gfile_Exists path w = (Return false, w).
Proof.
  intros H. unfold gfile_Exists. rewrite H.
  rewrite bool_decide_eq_false_2; [reflexivity | ].
  intros [x Hx]. discriminate.
Qed.

(** ** The tokenizer *)

(** C4. Tokenizing the sentence "what is the meaning of life?" yields the
    seven tokens what, is, the, meaning, of, life and the question mark. *)
Theorem tokenize_meaning_of_life :
  basic_tokenizer "what is the meaning of life?" =
  WList ["what"; "is"; "the"; "meaning"; "of"; "life"; "?"].
Proof. vm_compute. reflexivity. Qed.

(** C5, as the claim states it, fails: for the sentinel the tokenizer
    returns the bare string, which is no one-element list and iterates as
    its fifteen characters. *)
Lemma sentinel_not_singleton_list :
  basic_tokenizer "breakHerePlease" <> WList ["breakHerePlease"] /\
  length (iter_words (basic_tokenizer "breakHerePlease")) = 15%nat.
Proof. split; [ vm_compute; discriminate | vm_compute; reflexivity ]. Qed.

(** C5, amended. For a sentence that is the sentinel up to surrounding
    whitespace, the tokenizer returns the stripped sentinel string itself,
    and it is [sentence_to_token_ids] (with the default tokenizer, whatever
    the digit flag) that wraps it into the one-element list, without a
    lookup and without printing. *)
Theorem sentinel_pass_through (sentence : string) (vocabulary : gmap string Z)
    (normalize_digits : bool) (w : world) :
  Py.strip sentence = sentinel ->
  basic_tokenizer sentence = WStr "breakHerePlease" /\
  sentence_to_token_ids sentence vocabulary TokNone normalize_digits w =
    (Return [Lit "breakHerePlease"], w).
Proof.
  intros Hs.
  assert (Ht : basic_tokenizer sentence = WStr sentinel).
  { unfold basic_tokenizer. rewrite decide_True by exact Hs. by rewrite Hs. }
  split; [exact Ht | ].
  unfold sentence_to_token_ids. simpl truthy. cbv iota.
  rewrite run_bind. unfold ret at 1. unfold mret, M_ret. rewrite Ht.
  rewrite decide_True by reflexivity. reflexivity.
Qed.

Lemma sentinel_pass_through_witness :
  basic_tokenizer "  breakHerePlease " = WStr "breakHerePlease" /\
  sentence_to_token_ids "  breakHerePlease " ∅ TokNone true (World ∅ []) =
    (Return [Lit "breakHerePlease"], World ∅ []).
Proof.
  apply (sentinel_pass_through "  breakHerePlease " ∅ true (World ∅ [])).
  vm_compute. reflexivity.
Defined.

(** ** The two digit conventions *)

Lemma app_String (c : ascii) (s t : string) :
  String c s +:+ t = String c (s +:+ t).
Proof. reflexivity. Qed.

Lemma app_empty (t : string) : "" +:+ t = t.
Proof. reflexivity. Qed.

Lemma sub0_has_zero (w : string) :
  has_digit w = true -> occurs "0" (re_sub_DIGIT_RE "0" w) = true.
Proof.
  induction w as [|c w IH]; simpl; [discriminate|].
  destruct (Py.isdigit c) eqn:Hc; simpl.
  - intros _. reflexivity.
  - intros H. rewrite IH by exact H. apply orb_true_r.
Qed.

Lemma digit_free_occurs (d : ascii) (w : string) :
  Py.isdigit d = true -> has_digit w = false -> occurs d w = false.
Proof.
  intros Hd. induction w as [|c w IH]; simpl; [reflexivity|].
  intros H. apply orb_false_iff in H as [Hc Hw].
  rewrite IH by exact Hw. rewrite orb_false_r.
  destruct (Ascii.eqb_spec d c) as [->|]; [congruence | reflexivity].
Qed.

Lemma sub0_no_one (w : string) : occurs "1" (re_sub_DIGIT_RE "0" w) = false.
Proof.
  induction w as [|c w IH]; cbn [re_sub_DIGIT_RE occurs]; [reflexivity|].
  destruct (Py.isdigit c) eqn:Hc.
  - rewrite app_String, app_empty. simpl. exact IH.
  - cbn [occurs]. rewrite IH, orb_false_r.
    destruct (Ascii.eqb_spec "1"%char c) as [<-|]; [ | reflexivity].
    vm_compute in Hc. discriminate.
Qed.

Lemma sub100_has_one (w : string) :
  has_digit w = true -> occurs "1" (re_sub_DIGIT_RE "100" w) = true.
Proof.
  induction w as [|c w IH]; simpl; [discriminate|].
  destruct (Py.isdigit c) eqn:Hc; simpl.
  - intros _. reflexivity.
  - intros H. rewrite IH by exact H. apply orb_true_r.
Qed.

Lemma sub_digit_free (repl w : string) :
  has_digit w = false -> re_sub_DIGIT_RE repl w = w.
Proof.
  induction w as [|c w IH]; simpl; [reflexivity|].
  intros H. apply orb_false_iff in H as [Hc Hw].
  rewrite Hc, IH by exact Hw. reflexivity.
Qed.

(** A key looked up for a token with a digit is never a word that the
    builder counts under normalization. *)
Lemma sub0_never_sub100 (w w' : string) :
  has_digit w = true -> re_sub_DIGIT_RE "0" w <> re_sub_DIGIT_RE "100" w'.
Proof.
  intros Hw Heq.
  destruct (has_digit w') eqn:Hw'.
  - pose proof (sub100_has_one w' Hw') as H1.
    rewrite <- Heq, sub0_no_one in H1. discriminate.
  - rewrite (sub_digit_free "100" w' Hw') in Heq.
    pose proof (sub0_has_zero w Hw) as H0.
    rewrite Heq, (digit_free_occurs "0" w' eq_refl Hw') in H0. discriminate.
Qed.

(** The encoder on a tokenizer that returns the one token [t]. *)
Lemma sentence_to_token_ids_single (sentence t : string)
    (vocabulary : gmap string Z) (wd : world) :
  sentence_to_token_ids sentence vocabulary (TokFun (fun _ => WList [t])) true wd =
  (Return [Id (default UNK_ID (vocabulary !! re_sub_DIGIT_RE "0" t))], wd).
Proof. reflexivity. Qed.

(** ** Writing a file *)

Lemma app_assoc_s (a b c : string) : (a +:+ b) +:+ c = a +:+ (b +:+ c).
Proof. induction a as [|x a IH]; [reflexivity|]. rewrite !app_String. by rewrite IH. Qed.

Lemma app_empty_r (a : string) : a +:+ "" = a.
Proof. induction a as [|x a IH]; [reflexivity|]. rewrite app_String. by rewrite IH. Qed.

Lemma complete_path_differs (vp : string) : vp +:+ "complete" <> vp.
Proof.
  intros H. rewrite <- (app_empty_r vp) in H at 2.
  apply (inj (String.app vp)) in H. discriminate.
Qed.

(** The writes of one file object: the first one creates or empties the
    file, so a loop over no element leaves the store as it was. *)
Lemma write_each_run {A} (path : string) (g : A -> string) (l : list A)
    (written : bool) (w : world) :
  write_each path g l written w =
  (Return tt,
   World (match l with
          | [] => files w
          | _ => <[path := (if written then default "" (files w !! path) else "")
                           +:+ Py.concat (g <$> l)]> (files w)
          end) (stdout w)).
Proof.
  revert written w. induction l as [|x l IH]; intros written w.
  - by destruct w.
  - cbn [write_each]. rewrite run_bind. unfold gfile_write at 1. cbv beta zeta iota.
    rewrite IH. cbn [files stdout]. f_equal. f_equal.
    destruct l as [|y l].
    + cbn [fmap list_fmap Py.concat foldr]. by rewrite app_empty_r.
    + rewrite lookup_insert_eq, insert_insert_eq. cbn [default].
      f_equal.
      change (Py.concat (g <$> x :: y :: l))
        with (g x +:+ Py.concat (g <$> y :: l)).
      unfold id. by rewrite app_assoc_s.
Qed.

Lemma write_each_fresh {A} (path : string) (g : A -> string) (l : list A)
    (w : world) :
  write_each path g l false w =
  (Return tt, World (written_file path (g <$> l) (files w)) (stdout w)).
Proof. rewrite write_each_run. by destruct l. Qed.

Lemma written_file_other (path k : string) (chunks : list string)
    (fs : gmap string string) :
  path <> k -> written_file path chunks fs !! k = fs !! k.
Proof.
  intros Hk. destruct chunks; [reflexivity|]. cbn [written_file].
  by rewrite lookup_insert_ne.
Qed.

Lemma written_file_same (path : string) (chunks : list string)
    (fs : gmap string string) :
  chunks <> [] -> written_file path chunks fs !! path = Some (Py.concat chunks).
Proof.
  intros Hc. destruct chunks; [done|]. cbn [written_file].
  by rewrite lookup_insert_eq.
Qed.

Lemma written_file_keeps (path k : string) (chunks : list string)
    (fs : gmap string string) :
  is_Some (fs !! k) -> is_Some (written_file path chunks fs !! k).
Proof.
  intros Hk. destruct chunks; [exact Hk|]. cbn [written_file].
  destruct (decide (path = k)) as [->|].
  - rewrite lookup_insert_eq. eauto.
  - by rewrite lookup_insert_ne.
Qed.

(** ** The builder *)

Lemma counted_cons (nd : bool) (line : string) (lines : list string)
    (vocab : list (string * Z)) :
  counted nd (line :: lines) vocab =
  counted nd lines
    (foldl (fun v w => count_word (counted_word nd w) v)
           vocab (iter_words (basic_tokenizer line))).
Proof. reflexivity. Qed.

(** Counting never raises and touches no file. *)
Lemma count_lines_run (nd : bool) (lines : list string) (counter : Z)
    (vocab : list (string * Z)) (w : world) :
  exists out,
    count_lines nd lines counter vocab w =
    (Return (counted nd lines vocab), World (files w) out).
Proof.
  revert counter vocab w. induction lines as [|line lines IH]; intros counter vocab w.
  - exists (stdout w). by destruct w.
  - cbn [count_lines]. rewrite run_bind, counted_cons.
    destruct (decide ((counter + 1) `mod` 100000 = 0)).
    + unfold print at 1. cbv beta iota.
      edestruct IH as [out Hout]. rewrite Hout. by eexists.
    + unfold skip, ret, mret, M_ret. cbv beta iota.
      edestruct IH as [out Hout]. rewrite Hout. by eexists.
Qed.

(** A build that runs: no vocabulary yet, a readable data file. Each of the
    two files is there afterwards only if a line was written to it. *)
Lemma create_vocabulary_fresh (vp dp : string) (m : Z) (nd : bool) (w : world)
    (content : string) :
  files w !! vp = None ->
  files w !! dp = Some content ->
  let vocab := counted nd (gfile_lines content) [] in
  exists out,
    create_vocabulary vp dp m nd w =
    (Return tt,
     World (written_file vp ((fun x => x +:+ Py.nl) <$> vocab_list_of vocab m)
              (written_file (vp +:+ "complete")
                 ((fun wn : string * Z => wn.1 +:+ ":" +:+ pretty wn.2 +:+ Py.nl)
                    <$> sorted_desc vocab) (files w)))
           out).
Proof.
  intros Hvp Hdp vocab. unfold create_vocabulary.
  rewrite run_bind, (exists_false _ _ Hvp). cbn [negb].
  rewrite run_bind. unfold print at 1.
  rewrite run_bind. unfold gfile_read at 1. cbn [files]. rewrite Hdp.
  rewrite run_bind.
  match goal with |- context [count_lines nd ?ls 0 [] ?w0] =>
    destruct (count_lines_run nd ls 0 [] w0) as [out ->] end.
  cbn [files]. rewrite run_bind, write_each_fresh. cbv beta iota. cbn [files stdout].
  rewrite write_each_fresh. cbn [files stdout].
  exists out. reflexivity.
Qed.

Lemma create_vocabulary_present (vp dp : string) (m : Z) (nd : bool) (w : world) :
  is_Some (files w !! vp) -> create_vocabulary vp dp m nd w = (Return tt, w).
Proof.
  intros [c Hc]. unfold create_vocabulary.
  rewrite run_bind, (exists_true _ _ _ Hc). reflexivity.
Qed.

Lemma create_vocabulary_unreadable (vp dp : string) (m : Z) (nd : bool)
    (w : world) :
  files w !! vp = None -> files w !! dp = None ->
  exists out,
    create_vocabulary vp dp m nd w = (Raise (NotFoundError dp), World (files w) out).
Proof.
  intros Hvp Hdp. unfold create_vocabulary.
  rewrite run_bind, (exists_false _ _ Hvp). cbn [negb].
  rewrite run_bind. unfold print at 1.
  rewrite run_bind. unfold gfile_read at 1. cbn [files]. rewrite Hdp.
  by eexists.
Qed.

(** With a cap of at least one the list written holds a reserved symbol. *)
Lemma vocab_list_of_nonempty (vocab : list (string * Z)) (m : Z) :
  1 <= m -> vocab_list_of vocab m <> [].
Proof.
  intros Hm. unfold vocab_list_of.
  destruct (_ >? m); [ | discriminate].
  unfold Py.slice_to. rewrite (proj2 (Z.leb_le 0 m)) by lia.
  destruct (Z.to_nat m) as [|k] eqn:Hk; [lia|]. discriminate.
Qed.

(** A build with a cap of at least one that returns leaves a vocabulary
    file behind. *)
Lemma create_vocabulary_leaves_file (vp dp : string) (m : Z) (nd : bool)
    (w w' : world) :
  1 <= m ->
  create_vocabulary vp dp m nd w = (Return tt, w') -> is_Some (files w' !! vp).
Proof.
  intros Hm. destruct (files w !! vp) as [c|] eqn:Hvp.
  - rewrite create_vocabulary_present by eauto. intros [= <-]. eauto.
  - destruct (files w !! dp) as [content|] eqn:Hdp.
    + destruct (create_vocabulary_fresh vp dp m nd w content Hvp Hdp) as [out ->].
      intros [= <-]. cbn [files]. rewrite written_file_same; [eauto|].
      intros H. apply fmap_nil_inv in H. by apply vocab_list_of_nonempty in H.
    + destruct (create_vocabulary_unreadable vp dp m nd w Hvp Hdp) as [out ->].
      discriminate.
Qed.

(** C6, as the claim states it, fails for a cap of zero: the build returns
    and writes no vocabulary file, so the next call at the same path builds
    again and prints its message once more. *)
Lemma zero_cap_builds_twice :
  let w := (create_vocabulary "vocab" "data" 0 true corpus_world).2 in
  create_vocabulary "vocab" "data" 0 true corpus_world = (Return tt, w) /\
  files w !! "vocab" = None /\
  create_vocabulary "vocab" "data" 0 true w <> (Return tt, w).
Proof. vm_compute. split; [reflexivity|]. split; [reflexivity|]. discriminate. Qed.

(** C6, amended. Where a vocabulary file exists at the path, calling the builder
    (with any data path, cap and digit flag) returns at once: no file is
    changed and nothing is printed. An earlier build that returned has left
    such a file whenever its cap was at least one, so building again is then
    a no-op. *)
Theorem create_vocabulary_idempotent (vp dp : string) (m : Z) (nd : bool)
    (w : world) :
  (is_Some (files w !! vp) \/
   exists w0 dp0 m0 nd0,
     1 <= m0 /\ create_vocabulary vp dp0 m0 nd0 w0 = (Return tt, w)) ->
  create_vocabulary vp dp m nd w = (Return tt, w).
Proof.
  intros [H | (w0 & dp0 & m0 & nd0 & Hm & H)].
  - by apply create_vocabulary_present.
  - apply create_vocabulary_present. by eapply create_vocabulary_leaves_file.
Qed.

Lemma create_vocabulary_idempotent_witness :
  let w := (create_vocabulary "vocab" "data" 6 true corpus_world).2 in
  create_vocabulary "vocab" "other" 9 false w = (Return tt, w).
Proof.
  apply (create_vocabulary_idempotent "vocab" "other" 9 false).
  right. exists corpus_world, "data", 6, true. split; [lia|]. vm_compute. reflexivity.
Defined.

(** ** The loader *)

Lemma initialize_vocabulary_present (vp : string) (w : world) (content : string) :
  files w !! vp = Some content ->
  initialize_vocabulary vp w =
  (Return (Py.dict ((fun yx : Z * string => (yx.2, yx.1))
                      <$> Py.enumerate (Py.strip <$> gfile_lines content)),
           Py.strip <$> gfile_lines content), w).
Proof.
  intros H. unfold initialize_vocabulary.
  rewrite run_bind, (exists_true _ _ _ H). cbv beta iota.
  rewrite run_bind. unfold gfile_read. rewrite H. reflexivity.
Qed.

Lemma initialize_vocabulary_missing (vp : string) (w : world) :
  files w !! vp = None ->
  initialize_vocabulary vp w =
  (Raise (ValueError ["Vocabulary file %s not found."; vp]), w).
Proof.
  intros H. unfold initialize_vocabulary.
  rewrite run_bind, (exists_false _ _ H). reflexivity.
Qed.

(** The reader of the file drops a carriage return inside a line: the two
    letters around it make one entry. *)
Lemma initialize_vocabulary_drops_carriage_return :
  let w := World {[ "vocab" := String "a" (String "013" (String "b" Py.nl)) ]} [] in
  initialize_vocabulary "vocab" w = (Return (vocab_of ["ab"], ["ab"]), w).
Proof. vm_compute. reflexivity. Qed.

(** C7, as the claim states it, fails for the file encoder: where the target
    file already exists, a missing vocabulary is not loaded and nothing is
    raised. *)
Lemma data_to_token_ids_skips_missing_vocabulary :
  let w := World {[ "ids" := "4 5" +:+ Py.nl ]} [] in
  files w !! "vocab" = None /\
  data_to_token_ids "data" "ids" "vocab" false w = (Return tt, w).
Proof. split; vm_compute; reflexivity. Qed.

(** C7, amended. Loading raises the error that carries the path exactly when
    the vocabulary file is missing, and returns the pair, leaving the world
    as it was, exactly when the file exists. The file encoder propagates the
    error when its target file does not exist yet: it has then printed its
    message and has touched no file. *)
Theorem initialize_vocabulary_fails_iff_missing (vp : string) (w : world) :
  (files w !! vp = None <->
   initialize_vocabulary vp w =
   (Raise (ValueError ["Vocabulary file %s not found."; vp]), w)) /\
  (is_Some (files w !! vp) <->
   exists vocab rev_vocab,
     initialize_vocabulary vp w = (Return (vocab, rev_vocab), w)) /\
  (forall dp tp nd,
     files w !! tp = None -> files w !! vp = None ->
     data_to_token_ids dp tp vp nd w =
     (Raise (ValueError ["Vocabulary file %s not found."; vp]),
      World (files w) (stdout w ++ ["Tokenizing data in " +:+ dp]))).
Proof.
  split; [|split].
  - split; [apply initialize_vocabulary_missing|].
    destruct (files w !! vp) as [c|] eqn:H; [|reflexivity].
    rewrite (initialize_vocabulary_present _ _ _ H). discriminate.
  - split.
    + intros [c H]. rewrite (initialize_vocabulary_present _ _ _ H). eauto.
    + intros (vocab & rev_vocab & H).
      destruct (files w !! vp) as [c|] eqn:Hc; [eauto|].
      rewrite (initialize_vocabulary_missing _ _ Hc) in H. discriminate.
  - intros dp tp nd Htp Hvp. unfold data_to_token_ids.
    rewrite run_bind, (exists_false _ _ Htp). cbn [negb].
    rewrite run_bind. unfold print at 1.
    rewrite run_bind, initialize_vocabulary_missing by exact Hvp. reflexivity.
Qed.

Lemma initialize_vocabulary_fails_iff_missing_witness :
  data_to_token_ids "data" "ids" "vocab" false corpus_world =
  (Raise (ValueError ["Vocabulary file %s not found."; "vocab"]),
   World (files corpus_world) (stdout corpus_world ++ ["Tokenizing data in data"])).
Proof.
  apply (initialize_vocabulary_fails_iff_missing "vocab" corpus_world);
    vm_compute; reflexivity.
Defined.

(** *** The dictionary of the loader against its list *)

Lemma enumerate_from_snoc {A} (i : Z) (l : list A) (x : A) :
  Py.enumerate_from i (l ++ [x]) =
  Py.enumerate_from i l ++ [(i + Z.of_nat (length l), x)].
Proof.
  revert i. induction l as [|y l IH]; intros i.
  - simpl. by rewrite Z.add_0_r.
  - cbn [Py.enumerate_from app length]. rewrite IH, Nat2Z.inj_succ.
    by replace (i + Z.succ (Z.of_nat (length l)))
      with (i + 1 + Z.of_nat (length l)) by lia.
Qed.

Lemma vocab_of_snoc (l : list string) (x : string) :
  vocab_of (l ++ [x]) = <[x := Z.of_nat (length l)]> (vocab_of l).
Proof.
  unfold vocab_of, Py.dict, Py.enumerate.
  rewrite enumerate_from_snoc, fmap_app, foldl_app. reflexivity.
Qed.

(** An id found in the dictionary indexes its own token in the list. *)
Lemma vocab_of_Some (l : list string) (k : string) (i : Z) :
  vocab_of l !! k = Some i ->
  0 <= i < Z.of_nat (length l) /\ l !! Z.to_nat i = Some k.
Proof.
  revert i. induction l as [|x l IH] using rev_ind; intros i.
  - unfold vocab_of, Py.dict. simpl. by rewrite lookup_empty.
  - rewrite vocab_of_snoc, length_app. simpl.
    destruct (decide (x = k)) as [->|Hne].
    + rewrite lookup_insert_eq. intros [= <-]. split; [lia|].
      rewrite Nat2Z.id. by rewrite list_lookup_middle.
    + rewrite lookup_insert_ne by exact Hne. intros H.
      destruct (IH _ H) as [Hi Hl]. split; [lia|].
      by apply lookup_app_l_Some.
Qed.

(** The dictionary knows exactly the tokens of the list. *)
Lemma vocab_of_None (l : list string) (k : string) :
  vocab_of l !! k = None <-> k ∉ l.
Proof.
  induction l as [|x l IH] using rev_ind.
  - unfold vocab_of, Py.dict. simpl. rewrite lookup_empty. split; [|done].
    intros _ H. by apply elem_of_nil in H.
  - rewrite vocab_of_snoc. rewrite lookup_insert_None, IH.
    rewrite elem_of_app, list_elem_of_singleton. split.
    + intros [Hl Hx] [Hin | Heq]; [by apply Hl | by apply Hx].
    + intros H. split; [intros Hin | intros Hx]; apply H; [by left | by right].
Qed.

Lemma getitem_in_range {A} (l : list A) (i : Z) :
  0 <= i < Z.of_nat (length l) -> Py.getitem l i = l !! Z.to_nat i.
Proof.
  intros [H0 H1]. unfold Py.getitem.
  apply Z.leb_le in H0. apply Z.ltb_lt in H1. by rewrite H0, H1.
Qed.

(** What the encoder returns for the default tokenizer, apart from the
    sentinel: the ids of the looked up keys. *)
Lemma sentence_to_token_ids_default (sentence : string) (vocabulary : gmap string Z)
    (nd : bool) (w : world) :
  Py.strip sentence <> sentinel ->
  exists w',
    sentence_to_token_ids sentence vocabulary TokNone nd w =
    (Return (Id <$> ((fun t => default UNK_ID
                         (vocabulary !! (if nd then re_sub_DIGIT_RE "0" t else t)))
                       <$> iter_words (basic_tokenizer sentence))), w') /\
    files w' = files w.
Proof.
  intros Hs. unfold sentence_to_token_ids. simpl truthy. cbv iota.
  rewrite run_bind. unfold ret at 1. unfold mret, M_ret.
  assert (Hne : basic_tokenizer sentence <> WStr sentinel).
  { unfold basic_tokenizer. rewrite decide_False by exact Hs. discriminate. }
  rewrite decide_False by exact Hne.
  destruct nd; cbn [negb].
  - exists w. split; reflexivity.
  - rewrite run_bind. unfold print. eexists. split; reflexivity.
Qed.

(** C1, as the claim states it, fails under the default digit
    normalization: the token a1 is in the loaded vocabulary, with id 4, and
    the sentence a1 is encoded to 3, where the reverse vocabulary holds the
    unknown symbol. *)
Lemma digit_token_does_not_round_trip :
  let w := World {[ "vocab" := "_PAD" +:+ Py.nl +:+ "_GO" +:+ Py.nl +:+ "_EOS"
                     +:+ Py.nl +:+ "_UNK" +:+ Py.nl +:+ "a1" +:+ Py.nl ]} [] in
  match initialize_vocabulary "vocab" w with
  | (Return (vocab, rev_vocab), _) =>
      basic_tokenizer "a1" = WList ["a1"] /\
      vocab !! "a1" = Some 4 /\
      Py.getitem rev_vocab 4 = Some "a1" /\
      (sentence_to_token_ids "a1" vocab TokNone true w).1 = Return [Id 3] /\
      Py.getitem rev_vocab 3 = Some "_UNK"
  | _ => False
  end.
Proof. vm_compute. repeat split; reflexivity. Qed.

(** C1, amended. For a vocabulary returned by the loader and a sentence
    other than the sentinel, the default tokenizer and either digit flag, the
    encoder returns one id per token. With the key of a token being the token
    itself, or, under digit normalization, the token with each digit replaced
    by "0": a key that is in the vocabulary gets an id at which the reverse
    vocabulary holds that key, and a key that is not gets [UNK_ID]. The
    vocabulary knows exactly the entries of the reverse vocabulary. *)
Theorem encode_decode_round_trip (vp : string) (w : world)
    (vocab : gmap string Z) (rev_vocab : list string)
    (sentence : string) (nd : bool) :
  initialize_vocabulary vp w = (Return (vocab, rev_vocab), w) ->
  Py.strip sentence <> sentinel ->
  (forall k, is_Some (vocab !! k) <-> k ∈ rev_vocab) /\
  exists ids w',
    sentence_to_token_ids sentence vocab TokNone nd w = (Return (Id <$> ids), w') /\
    Forall2 (fun t i =>
               let k := if nd then re_sub_DIGIT_RE "0" t else t in
               (is_Some (vocab !! k) -> Py.getitem rev_vocab i = Some k) /\
               (vocab !! k = None -> i = UNK_ID))
            (iter_words (basic_tokenizer sentence)) ids.
Proof.
  intros Hinit Hs.
  destruct (files w !! vp) as [content|] eqn:Hvp;
    [ | rewrite (initialize_vocabulary_missing _ _ Hvp) in Hinit; discriminate ].
  rewrite (initialize_vocabulary_present _ _ _ Hvp) in Hinit.
  injection Hinit as Hv Hr. fold (vocab_of (Py.strip <$> gfile_lines content)) in Hv.
  rewrite Hr in Hv. subst vocab. clear Hr.
  split.
  - intros k. rewrite <- not_eq_None_Some, vocab_of_None.
    split; [apply dec_stable | tauto].
  - destruct (sentence_to_token_ids_default sentence (vocab_of rev_vocab) nd w Hs)
      as (w' & Hrun & _).
    eexists _, w'. split; [exact Hrun|].
    apply Forall2_fmap_r, Forall_Forall2_diag, Forall_forall.
    intros t _. cbv zeta. split.
    + intros [i Hi]. rewrite Hi. simpl.
      destruct (vocab_of_Some _ _ _ Hi) as [Hrange Hl].
      by rewrite getitem_in_range.
    + intros ->. reflexivity.
Qed.

Lemma encode_decode_round_trip_witness :
  let w := World {[ "vocab" := "_PAD" +:+ Py.nl +:+ "_GO" +:+ Py.nl +:+ "_EOS"
                     +:+ Py.nl +:+ "_UNK" +:+ Py.nl +:+ "a0" +:+ Py.nl ]} [] in
  let rev_vocab := ["_PAD"; "_GO"; "_EOS"; "_UNK"; "a0"] in
  (forall k, is_Some (vocab_of rev_vocab !! k) <-> k ∈ rev_vocab) /\
  exists ids w',
    sentence_to_token_ids "a1 b" (vocab_of rev_vocab) TokNone true w =
      (Return (Id <$> ids), w') /\
    Forall2 (fun t i =>
               let k := re_sub_DIGIT_RE "0" t in
               (is_Some (vocab_of rev_vocab !! k) -> Py.getitem rev_vocab i = Some k) /\
               (vocab_of rev_vocab !! k = None -> i = UNK_ID))
            (iter_words (basic_tokenizer "a1 b")) ids.
Proof.
  intros w rev_vocab.
  apply (encode_decode_round_trip "vocab" w (vocab_of rev_vocab) rev_vocab "a1 b" true).
  - vm_compute. reflexivity.
  - vm_compute. discriminate.
Defined.

(** ** The file encoder *)

(** A falsy tokenizer argument selects [basic_tokenizer]; the digit flag of
    the encoder is the one passed last. *)
Lemma sentence_to_token_ids_falsy (line : string) (vocab : gmap string Z)
    (t : tokenizer_arg) (w : world) :
  truthy t = false ->
  sentence_to_token_ids line vocab t true w = (Return (encode_normalized vocab line), w).
Proof.
  intros Ht. unfold sentence_to_token_ids, encode_normalized. rewrite Ht.
  rewrite run_bind. unfold ret at 1. unfold mret, M_ret. cbv beta iota.
  unfold basic_tokenizer.
  destruct (decide (Py.strip line = sentinel)) as [Hs|Hs].
  - rewrite Hs. rewrite decide_True by reflexivity. reflexivity.
  - rewrite decide_False by discriminate. reflexivity.
Qed.

(** The loop of the file encoder never raises; its first write creates the
    target, so a loop over no line leaves the store as it was. *)
Lemma encode_lines_run (tp : string) (vocab : gmap string Z)
    (lines : list string) (counter : Z) (written : bool) (w : world) :
  exists out,
    encode_lines tp vocab false lines counter written w =
    (Return tt,
     World (match lines with
            | [] => files w
            | _ => <[tp := (if written then default "" (files w !! tp) else "")
                           +:+ Py.concat (ids_line vocab <$> lines)]> (files w)
            end) out).
Proof.
  revert counter written w.
  induction lines as [|line lines IH]; intros counter written w.
  - exists (stdout w). by destruct w.
  - cbn [encode_lines]. rewrite run_bind.
    set (w1 := if decide ((counter + 1) `mod` 100000 = 0)
               then World (files w)
                      (stdout w ++ ["  tokenizing line " +:+ pretty (counter + 1)])
               else w).
    assert (Hw1 : (if decide ((counter + 1) `mod` 100000 = 0)
                   then print ("  tokenizing line " +:+ pretty (counter + 1))
                   else skip) w = (Return tt, w1)).
    { unfold w1. by destruct (decide ((counter + 1) `mod` 100000 = 0)). }
    rewrite Hw1. cbv beta iota.
    assert (Hf : files w1 = files w).
    { unfold w1. by destruct (decide ((counter + 1) `mod` 100000 = 0)). }
    rewrite run_bind, sentence_to_token_ids_falsy by reflexivity.
    cbv beta iota. rewrite run_bind. unfold gfile_write at 1. cbv beta zeta iota.
    rewrite Hf. fold (ids_line vocab line).
    edestruct (IH (counter + 1) true
                 (World (<[tp := (if written then default "" (files w !! tp) else "")
                                 +:+ ids_line vocab line]> (files w)) (stdout w1)))
      as [out Hout].
    exists out. rewrite Hout. cbn [files]. f_equal. f_equal.
    destruct lines as [|line' lines].
    + cbn [fmap list_fmap Py.concat foldr]. by rewrite app_empty_r.
    + rewrite lookup_insert_eq, insert_insert_eq. cbn [default]. unfold id.
      f_equal.
      change (Py.concat (ids_line vocab <$> line :: line' :: lines))
        with (ids_line vocab line +:+ Py.concat (ids_line vocab <$> line' :: lines)).
      by rewrite app_assoc_s.
Qed.

(** A conversion that runs: no target yet, a vocabulary and a data file to
    read. The target is there afterwards only if the data had a line. *)
Lemma data_to_token_ids_fresh (dp tp vp : string) (w : world)
    (content cv : string) :
  files w !! tp = None ->
  files w !! dp = Some content ->
  files w !! vp = Some cv ->
  exists out,
    data_to_token_ids dp tp vp false w =
    (Return tt,
     World (written_file tp
              (ids_line (vocab_of (Py.strip <$> gfile_lines cv))
                 <$> gfile_lines content) (files w)) out).
Proof.
  intros Htp Hdp Hvp. unfold data_to_token_ids.
  rewrite run_bind, (exists_false _ _ Htp). cbn [negb].
  rewrite run_bind. unfold print at 1.
  rewrite run_bind, (initialize_vocabulary_present _ _ cv) by exact Hvp.
  cbv beta iota.
  rewrite run_bind. unfold gfile_read at 1. cbn [files]. rewrite Hdp.
  match goal with |- context [encode_lines tp ?v false ?ls 0 false ?w0] =>
    destruct (encode_lines_run tp v ls 0 false w0) as [out ->] end.
  exists out. cbn [files]. f_equal. f_equal.
  by destruct (gfile_lines content).
Qed.

(** C10. With the flag of the file encoder at its default [False], the flag
    lands in the tokenizer position: the encoder of a line behaves as with
    no tokenizer and its own digit flag on, that is, it returns the
    normalized encoding and prints nothing. So, when the target does not
    exist and the vocabulary and the data can be read, the conversion
    returns; the target is written with one line per line read from the data
    file, each the normalized encoding, and where no line is read nothing is
    written and no file is changed. *)
Theorem data_to_token_ids_flag_has_no_effect (dp tp vp : string) (w : world)
    (content : string) (vocab : gmap string Z) (rev_vocab : list string) :
  files w !! tp = None ->
  files w !! dp = Some content ->
  initialize_vocabulary vp w = (Return (vocab, rev_vocab), w) ->
  (forall line w0,
     sentence_to_token_ids line vocab (TokBool false) true w0 =
       sentence_to_token_ids line vocab TokNone true w0 /\
     sentence_to_token_ids line vocab TokNone true w0 =
       (Return (encode_normalized vocab line), w0)) /\
  exists w',
    data_to_token_ids dp tp vp false w = (Return tt, w') /\
    (gfile_lines content = [] -> files w' = files w) /\
    (gfile_lines content <> [] ->
     files w' =
       <[tp := Py.concat (ids_line vocab <$> gfile_lines content)]> (files w)).
Proof.
  intros Htp Hdp Hinit. split.
  - intros line w0. by rewrite !sentence_to_token_ids_falsy.
  - destruct (files w !! vp) as [cv|] eqn:Hvp;
      [ | rewrite (initialize_vocabulary_missing _ _ Hvp) in Hinit; discriminate ].
    rewrite (initialize_vocabulary_present _ _ _ Hvp) in Hinit.
    injection Hinit as Hv Hr.
    destruct (data_to_token_ids_fresh dp tp vp w content cv Htp Hdp Hvp)
      as [out Hrun].
    unfold vocab_of in Hrun. rewrite Hv in Hrun.
    eexists. split; [exact Hrun|]. cbn [files].
    destruct (gfile_lines content); split; done.
Qed.

Lemma data_to_token_ids_flag_has_no_effect_witness :
  exists w',
    data_to_token_ids "data" "ids" "vocab" false prepared_world = (Return tt, w') /\
    files w' !! "ids" = Some ("4 3 4 3" +:+ Py.nl +:+ "3 3 3 3" +:+ Py.nl).
Proof.
  destruct (data_to_token_ids_flag_has_no_effect "data" "ids" "vocab" prepared_world
              ("a b a 12" +:+ Py.nl +:+ "c a9, b" +:+ Py.nl)
              (vocab_of ["_PAD"; "_GO"; "_EOS"; "_UNK"; "a"; "12"])
              ["_PAD"; "_GO"; "_EOS"; "_UNK"; "a"; "12"])
    as [_ (w' & Hrun & _ & Hfiles)];
    [ vm_compute; reflexivity .. | ].
  exists w'. split; [exact Hrun|]. rewrite Hfiles, lookup_insert_eq.
  - vm_compute. reflexivity.
  - vm_compute. discriminate.
Defined.

(** ** What the builder writes is what the loader reads *)

Lemma spaceless_app (a b : string) :
  spaceless (a +:+ b) = spaceless a && spaceless b.
Proof.
  induction a as [|c a IH]; [reflexivity|].
  rewrite app_String. cbn [spaceless]. by rewrite IH, andb_assoc.
Qed.

Lemma split_spaceless (s : string) :
  Forall (fun w => spaceless w = true) (Py.split s).
Proof.
  induction s as [|c s IH]; cbn [Py.split]; [constructor|].
  destruct (Py.isspace c) eqn:Hc; [exact IH|].
  destruct (Py.starts_word s).
  - destruct (Py.split s) as [|w ws].
    + repeat constructor. cbn [spaceless]. by rewrite Hc.
    + inversion IH as [|? ? Hw Hws]; subst. constructor; [|exact Hws].
      cbn [spaceless]. by rewrite Hc, Hw.
  - constructor; [|exact IH]. cbn [spaceless]. by rewrite Hc.
Qed.

Lemma re_split_spaceless (f : string) :
  spaceless f = true ->
  Forall (fun w => spaceless w = true) (re_split_WORD_SPLIT f).
Proof.
  induction f as [|c f IH]; cbn [re_split_WORD_SPLIT spaceless].
  - intros _. by repeat constructor.
  - intros H. apply andb_true_iff in H as [Hc Hf]. specialize (IH Hf).
    destruct (word_split_char c).
    + constructor; [reflexivity|]. constructor; [|exact IH].
      cbn [spaceless]. by rewrite Hc.
    + destruct (re_split_WORD_SPLIT f) as [|w ws].
      * repeat constructor. cbn [spaceless]. by rewrite Hc.
      * inversion IH as [|? ? Hw Hws]; subst. constructor; [|exact Hws].
        cbn [spaceless]. by rewrite Hc, Hw.
Qed.

(** The tokens of a line hold no whitespace, so no line break. *)
Lemma tokens_spaceless (line : string) :
  Forall (fun w => spaceless w = true) (iter_words (basic_tokenizer line)).
Proof.
  unfold basic_tokenizer.
  destruct (decide (Py.strip line = sentinel)) as [Hs|Hs].
  - rewrite Hs. vm_compute. by repeat constructor.
  - cbn [iter_words]. apply Forall_forall. intros w Hw.
    apply list_elem_of_filter in Hw as [_ Hw].
    revert w Hw. apply Forall_forall. apply Forall_bind.
    eapply Forall_impl; [apply split_spaceless|].
    intros f Hf. by apply re_split_spaceless.
Qed.

Lemma re_sub_spaceless (repl w : string) :
  spaceless repl = true -> spaceless w = true ->
  spaceless (re_sub_DIGIT_RE repl w) = true.
Proof.
  intros Hr. induction w as [|c w IH]; [done|].
  cbn [re_sub_DIGIT_RE spaceless]. intros H.
  apply andb_true_iff in H as [Hc Hw].
  destruct (Py.isdigit c).
  - rewrite spaceless_app, Hr. by apply IH.
  - cbn [spaceless]. rewrite Hc. by apply IH.
Qed.

Lemma counted_word_spaceless (nd : bool) (w : string) :
  spaceless w = true -> spaceless (counted_word nd w) = true.
Proof.
  intros H. unfold counted_word. destruct nd; [|exact H].
  by apply re_sub_spaceless.
Qed.

(** *** What holds of every counted word holds of every vocabulary entry *)

Section keys.

Variable P : string -> Prop.

Lemma count_word_keys (word : string) (vocab : list (string * Z)) :
  P word -> Forall P vocab.*1 -> Forall P (count_word word vocab).*1.
Proof.
  intros Hw. induction vocab as [|[k n] vocab IH]; cbn [count_word].
  - intros _. by repeat constructor.
  - cbn [fmap list_fmap fst]. intros H. inversion H as [|? ? Hk Hv]; subst.
    destruct (decide (k = word)); constructor; auto.
Qed.

Lemma counted_keys (nd : bool) (lines : list string) (vocab : list (string * Z)) :
  (forall line,
     Forall (fun t => P (counted_word nd t)) (iter_words (basic_tokenizer line))) ->
  Forall P vocab.*1 -> Forall P (counted nd lines vocab).*1.
Proof.
  intros Htok. revert vocab.
  induction lines as [|line lines IH]; intros vocab Hv; [exact Hv|].
  rewrite counted_cons. apply IH.
  specialize (Htok line). revert vocab Hv.
  induction Htok as [|t ts Ht _ IHt]; intros vocab Hv; [exact Hv|].
  cbn [foldl]. apply IHt. by apply count_word_keys.
Qed.

Lemma insert_desc_keys (x : string * Z) (l : list (string * Z)) :
  P x.1 -> Forall P l.*1 -> Forall P (insert_desc x l).*1.
Proof.
  intros Hx. induction l as [|y l IH]; cbn [insert_desc].
  - intros _. by repeat constructor.
  - cbn [fmap list_fmap]. intros H. inversion H as [|? ? Hy Hl]; subst.
    destruct (x.2 <? y.2); repeat constructor; auto.
Qed.

Lemma sorted_desc_keys (vocab : list (string * Z)) :
  Forall P vocab.*1 -> Forall P (sorted_desc vocab).*1.
Proof.
  induction vocab as [|x l IH]; [by constructor|].
  cbn [fmap list_fmap]. intros H. inversion H as [|? ? Hx Hl]; subst.
  unfold sorted_desc. cbn [foldr]. apply insert_desc_keys; auto.
Qed.

Lemma vocab_list_of_keys (vocab : list (string * Z)) (m : Z) :
  Forall P _START_VOCAB -> Forall P vocab.*1 -> Forall P (vocab_list_of vocab m).
Proof.
  intros Hs Hv.
  assert (H : Forall P (_START_VOCAB ++ (sorted_desc vocab).*1)).
  { apply Forall_app. split; [exact Hs|]. by apply sorted_desc_keys. }
  unfold vocab_list_of. cbv zeta.
  destruct (_ >? m); [|exact H].
  unfold Py.slice_to. destruct (0 <=? m); by apply Forall_take.
Qed.

End keys.

Lemma vocab_list_of_spaceless (nd : bool) (lines : list string) (m : Z) :
  Forall (fun w => spaceless w = true) (vocab_list_of (counted nd lines []) m).
Proof.
  apply vocab_list_of_keys; [by repeat constructor|].
  apply counted_keys; [|constructor].
  intros line. eapply Forall_impl; [apply tokens_spaceless|].
  intros t Ht. by apply counted_word_spaceless.
Qed.

(** Reading back lines that were written one by one. *)
Lemma lines_line (w rest : string) :
  spaceless w = true ->
  Py.lines ((w +:+ Py.nl) +:+ rest) = (w +:+ Py.nl) :: Py.lines rest.
Proof.
  induction w as [|c w IH]; [reflexivity|].
  cbn [spaceless]. intros H. apply andb_true_iff in H as [Hc Hw].
  rewrite !app_String. cbn [Py.lines].
  destruct (Ascii.eqb_spec c Py.newline) as [->|_]; [discriminate Hc|].
  by rewrite (IH Hw).
Qed.

Lemma lines_written (l : list string) :
  Forall (fun w => spaceless w = true) l ->
  Py.lines (Py.concat ((fun x => x +:+ Py.nl) <$> l)) =
  (fun x => x +:+ Py.nl) <$> l.
Proof.
  induction 1 as [|w l Hw Hl IH]; [reflexivity|].
  cbn [fmap list_fmap Py.concat foldr].
  rewrite lines_line by exact Hw. f_equal. exact IH.
Qed.

Lemma rstrip_line (w : string) :
  spaceless w = true -> Py.rstrip (w +:+ Py.nl) = w.
Proof.
  induction w as [|c w IH]; [reflexivity|].
  cbn [spaceless]. intros H. apply andb_true_iff in H as [Hc Hw].
  rewrite app_String. cbn [Py.rstrip]. rewrite (IH Hw).
  destruct w; [|reflexivity].
  by destruct (Py.isspace c).
Qed.

Lemma strip_line (w : string) :
  spaceless w = true -> Py.strip (w +:+ Py.nl) = w.
Proof.
  intros H. unfold Py.strip. destruct w as [|c w]; [reflexivity|].
  rewrite app_String. cbn [Py.lstrip].
  pose proof H as H'. cbn [spaceless] in H'.
  apply andb_true_iff in H' as [Hc _].
  destruct (Py.isspace c); [discriminate|].
  rewrite <- app_String. by apply rstrip_line.
Qed.

Lemma strip_written (l : list string) :
  Forall (fun w => spaceless w = true) l ->
  Py.strip <$> ((fun x => x +:+ Py.nl) <$> l) = l.
Proof.
  induction 1 as [|w l Hw Hl IH]; [reflexivity|].
  cbn [fmap list_fmap]. rewrite strip_line by exact Hw. f_equal. exact IH.
Qed.

(** A written vocabulary holds no carriage return: the reader of the file
    drops nothing. *)
Lemma drop_cr_app (a b : string) : drop_cr (a +:+ b) = drop_cr a +:+ drop_cr b.
Proof.
  induction a as [|c a IH]; [reflexivity|].
  rewrite app_String. cbn [drop_cr].
  destruct (Ascii.eqb c "013"); [exact IH|]. by rewrite app_String, IH.
Qed.

Lemma drop_cr_spaceless (w : string) : spaceless w = true -> drop_cr w = w.
Proof.
  induction w as [|c w IH]; [reflexivity|].
  cbn [spaceless drop_cr]. intros H. apply andb_true_iff in H as [Hc Hw].
  destruct (Ascii.eqb_spec c "013") as [->|_]; [discriminate Hc|].
  by rewrite (IH Hw).
Qed.

Lemma drop_cr_written (l : list string) :
  Forall (fun w => spaceless w = true) l ->
  drop_cr (Py.concat ((fun x => x +:+ Py.nl) <$> l)) =
  Py.concat ((fun x => x +:+ Py.nl) <$> l).
Proof.
  induction 1 as [|w l Hw Hl IH]; [reflexivity|].
  change (Py.concat ((fun x => x +:+ Py.nl) <$> w :: l))
    with ((w +:+ Py.nl) +:+ Py.concat ((fun x => x +:+ Py.nl) <$> l)).
  rewrite !drop_cr_app, IH, drop_cr_spaceless by exact Hw. reflexivity.
Qed.

Lemma gfile_lines_written (l : list string) :
  Forall (fun w => spaceless w = true) l ->
  gfile_lines (Py.concat ((fun x => x +:+ Py.nl) <$> l)) =
  (fun x => x +:+ Py.nl) <$> l.
Proof.
  intros H. unfold gfile_lines. rewrite drop_cr_written by exact H.
  by apply lines_written.
Qed.

(** After a build that runs, the loader returns the list that the builder
    made: the reserved symbols, then the words by falling count, cut at the
    cap. Where the cut leaves nothing, no vocabulary file is written. *)
Lemma build_then_load (vp dp : string) (m : Z) (nd : bool) (w : world)
    (content : string) :
  files w !! vp = None ->
  files w !! dp = Some content ->
  let vocab_list := vocab_list_of (counted nd (gfile_lines content) []) m in
  exists w',
    create_vocabulary vp dp m nd w = (Return tt, w') /\
    (vocab_list = [] -> files w' !! vp = None) /\
    (vocab_list <> [] ->
     initialize_vocabulary vp w' = (Return (vocab_of vocab_list, vocab_list), w')).
Proof.
  intros Hvp Hdp vocab_list.
  destruct (create_vocabulary_fresh vp dp m nd w content Hvp Hdp) as [out Hrun].
  eexists. split; [exact Hrun|]. cbn [files]. fold vocab_list. split.
  - intros ->. cbn [fmap list_fmap written_file].
    rewrite written_file_other by apply complete_path_differs. exact Hvp.
  - intros Hne.
    erewrite initialize_vocabulary_present.
    2:{ cbn [files]. apply written_file_same.
        intros H. by apply fmap_nil_inv in H. }
    pose proof (vocab_list_of_spaceless nd (gfile_lines content) m) as Hs.
    fold vocab_list in Hs.
    rewrite gfile_lines_written, strip_written by exact Hs. reflexivity.
Qed.

(** With a cap of at least one the load after the build returns. *)
Lemma build_then_load_capped (vp dp : string) (m : Z) (nd : bool) (w : world)
    (content : string) :
  files w !! vp = None ->
  files w !! dp = Some content ->
  1 <= m ->
  let vocab_list := vocab_list_of (counted nd (gfile_lines content) []) m in
  exists w',
    create_vocabulary vp dp m nd w = (Return tt, w') /\
    initialize_vocabulary vp w' = (Return (vocab_of vocab_list, vocab_list), w').
Proof.
  intros Hvp Hdp Hm vocab_list.
  destruct (build_then_load vp dp m nd w content Hvp Hdp) as (w' & Hrun & _ & Hload).
  exists w'. split; [exact Hrun|]. apply Hload. by apply vocab_list_of_nonempty.
Qed.

Lemma vocab_list_of_zero (vocab : list (string * Z)) : vocab_list_of vocab 0 = [].
Proof. reflexivity. Qed.

Lemma vocab_list_of_length (vocab : list (string * Z)) (m : Z) :
  0 <= m -> Z.of_nat (length (vocab_list_of vocab m)) <= m.
Proof.
  intros Hm. unfold vocab_list_of. cbv zeta.
  destruct (_ >? m) eqn:Hgt.
  - unfold Py.slice_to. apply Z.leb_le in Hm. rewrite Hm.
    rewrite length_take. apply Z.leb_le in Hm. lia.
  - rewrite Z.gtb_ltb in Hgt. apply Z.ltb_ge in Hgt. exact Hgt.
Qed.

Lemma vocab_list_of_reserved (vocab : list (string * Z)) (m : Z) :
  0 <= m ->
  take 4 (vocab_list_of vocab m) = take (Z.to_nat m) _START_VOCAB.
Proof.
  intros Hm. unfold vocab_list_of. cbv zeta.
  destruct (_ >? m) eqn:Hgt.
  - unfold Py.slice_to. pose proof Hm as Hm'. apply Z.leb_le in Hm'. rewrite Hm'.
    rewrite take_take, take_app_le by (unfold _START_VOCAB; cbn [length]; lia).
    change _START_VOCAB with (take 4 _START_VOCAB) at 2.
    rewrite take_take. f_equal. lia.
  - rewrite Z.gtb_ltb in Hgt. apply Z.ltb_ge in Hgt.
    rewrite length_app in Hgt. unfold _START_VOCAB in Hgt at 1. cbn [length] in Hgt.
    rewrite (take_ge _START_VOCAB) by (unfold _START_VOCAB; cbn [length]; lia).
    by rewrite (take_app_length' _START_VOCAB).
Qed.

(** C2, as the claim states it, fails for small and for negative caps: with
    a cap of 2 the file holds only the first two reserved symbols, and with
    a cap of -1 the builder drops the last word only, so that the file holds
    more entries than the cap. *)
Lemma small_cap_cuts_reserved_symbols :
  let w2 := (create_vocabulary "vocab" "data" 2 true corpus_world).2 in
  let wn := (create_vocabulary "vocab" "data" (-1) true corpus_world).2 in
  files w2 !! "vocab" = Some ("_PAD" +:+ Py.nl +:+ "_GO" +:+ Py.nl) /\
  (initialize_vocabulary "vocab" w2).1
    = Return (vocab_of ["_PAD"; "_GO"], ["_PAD"; "_GO"]) /\
  take 4 ["_PAD"; "_GO"] <> _START_VOCAB /\
  exists vocab rev_vocab,
    (initialize_vocabulary "vocab" wn).1 = Return (vocab, rev_vocab) /\
    ~ Z.of_nat (length rev_vocab) <= -1.
Proof.
  split; [vm_compute; reflexivity|].
  split; [vm_compute; reflexivity|].
  split; [discriminate|].
  eexists _, _. split; [vm_compute; reflexivity|]. simpl. lia.
Qed.

(** C2, amended. When the builder runs (no vocabulary file yet, a readable
    data file) with a cap that is not negative, it returns. With a cap of
    zero it writes no vocabulary file. With a cap of at least one the file
    it writes, as the loader reads it, has at most cap entries, and its
    first four entries are the first cap of PAD, GO, EOS, UNKNOWN; with a
    cap of at least four they are exactly these four, in that order,
    whatever the corpus. *)
Theorem vocabulary_cap_and_reserved (vp dp : string) (m : Z) (nd : bool)
    (w : world) (content : string) :
  files w !! vp = None ->
  files w !! dp = Some content ->
  0 <= m ->
  exists w',
    create_vocabulary vp dp m nd w = (Return tt, w') /\
    (m = 0 -> files w' !! vp = None) /\
    (1 <= m ->
     exists vocab rev_vocab,
       initialize_vocabulary vp w' = (Return (vocab, rev_vocab), w') /\
       Z.of_nat (length rev_vocab) <= m /\
       take 4 rev_vocab = take (Z.to_nat m) [_PAD; _GO; _EOS; _UNK] /\
       (4 <= m -> take 4 rev_vocab = [_PAD; _GO; _EOS; _UNK])).
Proof.
  intros Hvp Hdp Hm.
  destruct (build_then_load vp dp m nd w content Hvp Hdp)
    as (w' & Hrun & Hnone & Hload).
  exists w'. split; [exact Hrun|]. split.
  - intros ->. apply Hnone. apply vocab_list_of_zero.
  - intros H1. eexists _, _.
    split; [apply Hload; by apply vocab_list_of_nonempty|].
    split; [by apply vocab_list_of_length|].
    split; [by apply vocab_list_of_reserved|].
    intros H4. rewrite vocab_list_of_reserved by exact Hm.
    apply take_ge. cbn [length]. lia.
Qed.

Lemma vocabulary_cap_and_reserved_witness :
  exists w',
    create_vocabulary "vocab" "data" 6 true corpus_world = (Return tt, w') /\
    (6 = 0 -> files w' !! "vocab" = None) /\
    (1 <= 6 ->
     exists vocab rev_vocab,
       initialize_vocabulary "vocab" w' = (Return (vocab, rev_vocab), w') /\
       Z.of_nat (length rev_vocab) <= 6 /\
       take 4 rev_vocab = take (Z.to_nat 6) [_PAD; _GO; _EOS; _UNK] /\
       (4 <= 6 -> take 4 rev_vocab = [_PAD; _GO; _EOS; _UNK])).
Proof.
  apply (vocabulary_cap_and_reserved "vocab" "data" 6 true corpus_world
           ("a b a 12" +:+ Py.nl +:+ "c a9, b" +:+ Py.nl)).
  - vm_compute. reflexivity.
  - vm_compute. reflexivity.
  - lia.
Defined.

(** ** The restore policy of create_model *)

Lemma then_return_restore {weights A} (env : @ModelUtils.Env weights)
    (path : string) (a : A) (s : ModelUtils.Session) :
  ModelUtils.then_return (ModelUtils.saver_restore env path) a s =
  match ModelUtils.saved env path with
  | Some ws =>
      (Return a, ModelUtils.Build_Session (Some ws)
                   (ModelUtils.ops s ++ [ModelUtils.SaverRestore path]))
  | None =>
      (Raise (NotFoundError path),
       ModelUtils.Build_Session (ModelUtils.variables s)
         (ModelUtils.ops s ++ [ModelUtils.SaverRestore path]))
  end.
Proof.
  unfold ModelUtils.then_return, ModelUtils.saver_restore.
  by destruct (ModelUtils.saved env path).
Qed.

(** C8. One call of [create_model] takes one of three ways. With a restore
    path configured, the only call into the session is the restore from that
    path: it gives the saved parameters, or it raises and leaves the
    parameters as they were, with no initialization. With none configured,
    the log writer is opened, and then: where the checkpoint state of the
    training directory names a checkpoint that exists, the parameters are
    restored from it; otherwise they are initialized afresh. In every case
    exactly one call of the three sets the parameters. *)
Theorem create_model_restore_policy {weights} (params : ModelUtils.Params)
    (env : @ModelUtils.Env weights) (forward_only : bool)
    (s : ModelUtils.Session) :
  let model := ModelUtils.Build_Model (ModelUtils.buckets params) forward_only in
  let r := (ModelUtils.create_model params env forward_only s).1 in
  let s' := (ModelUtils.create_model params env forward_only s).2 in
  let latest := ModelUtils.get_checkpoint_state env (ModelUtils.train_dir params) in
  (forall path,
     ModelUtils.configured (ModelUtils.restore_model params) = Some path ->
     ModelUtils.ops s' = ModelUtils.ops s ++ [ModelUtils.SaverRestore path] /\
     (forall ws, ModelUtils.saved env path = Some ws ->
        r = Return model /\ ModelUtils.variables s' = Some ws) /\
     (ModelUtils.saved env path = None ->
        r = Raise (NotFoundError path) /\
        ModelUtils.variables s' = ModelUtils.variables s)) /\
  (forall path,
     ModelUtils.configured (ModelUtils.restore_model params) = None ->
     latest = Some path -> ModelUtils.path_exists env path = true ->
     ModelUtils.ops s' =
       ModelUtils.ops s ++ [ModelUtils.FileWriter (ModelUtils.log_dir params);
                            ModelUtils.SaverRestore path] /\
     (forall ws, ModelUtils.saved env path = Some ws ->
        r = Return model /\ ModelUtils.variables s' = Some ws) /\
     (ModelUtils.saved env path = None ->
        r = Raise (NotFoundError path) /\
        ModelUtils.variables s' = ModelUtils.variables s)) /\
  (ModelUtils.configured (ModelUtils.restore_model params) = None ->
   (latest = None \/
    exists path, latest = Some path /\ ModelUtils.path_exists env path = false) ->
   ModelUtils.ops s' =
     ModelUtils.ops s ++ [ModelUtils.FileWriter (ModelUtils.log_dir params);
                          ModelUtils.InitAllVariables] /\
   r = Return model /\
   ModelUtils.variables s' = Some (ModelUtils.drawn env)) /\
  exists new,
    ModelUtils.ops s' = ModelUtils.ops s ++ new /\
    length (filter (fun op => sets_parameters op = true) new) = 1%nat.
Proof.
  intros model r s' latest.
  assert (Hmodel : (if ModelUtils.buckets params
                    then ModelUtils.Build_Model true forward_only
                    else ModelUtils.Build_Model false forward_only) = model).
  { unfold model. by destruct (ModelUtils.buckets params). }
  subst r s' latest. unfold ModelUtils.create_model. rewrite Hmodel.
  destruct (ModelUtils.configured (ModelUtils.restore_model params))
    as [explicit|] eqn:Hconf;
    [ | unfold ModelUtils.file_writer; cbv beta iota;
        destruct (ModelUtils.get_checkpoint_state env (ModelUtils.train_dir params))
          as [c|] eqn:Hlatest;
        [ destruct (ModelUtils.path_exists env c) eqn:Hex | ] ];
    rewrite ?then_return_restore;
    unfold ModelUtils.then_return, ModelUtils.initialize_all_variables;
    try destruct (ModelUtils.saved env _) as [ws|] eqn:Hsaved;
    cbn [fst snd ModelUtils.ops ModelUtils.variables];
    rewrite <- ?app_assoc; cbn [app];
    (split; [|split; [|split]]);
    try (eexists; split; [reflexivity|reflexivity]);
    intros; simplify_eq; repeat split; intros; simplify_eq; try done.
  all: repeat match goal with
              | H : _ \/ _ |- _ => destruct H
              | H : exists _, _ |- _ => destruct H
              | H : _ /\ _ |- _ => destruct H
              end; simplify_eq; congruence.
Qed.

Lemma create_model_restore_policy_witness :
  let params := ModelUtils.Build_Params true (Some "missing") "train" "log" in
  let s := ModelUtils.Build_Session (Some "old") [] in
  (ModelUtils.create_model params sample_env false s).1
    = Raise (NotFoundError "missing") /\
  ModelUtils.variables (ModelUtils.create_model params sample_env false s).2
    = Some "old".
Proof.
  intros params s.
  destruct (create_model_restore_policy params sample_env false s)
    as [Hexplicit _].
  destruct (Hexplicit "missing" eq_refl) as (_ & _ & Hraise).
  split; apply Hraise; reflexivity.
Defined.

(** ** The request boundary *)

Lemma loaded_never_not_ready (bot : Server.ChatBot) (b : Server.body) :
  Server.status_of (Server.generate_response (Some bot) b) = 200 \/
  Server.status_of (Server.generate_response (Some bot) b) = 500.
Proof.
  unfold Server.generate_response, Server.try_respond.
  destruct b as [| |v]; [by right | by right |].
  destruct (negb (Server.jtruthy v)); [by right|].
  destruct (Server.has_message v) as [[|]|]; [|by right|by right].
  destruct v; try (by right).
  destruct (Server.field "message" fields); [|by right].
  destruct (Server.respond bot j); [by left | by right].
Qed.

Lemma serve_loaded (events : list Server.event) (bot : Server.ChatBot) :
  Forall (fun r => Server.status_of r <> 418) (Server.serve events (Some bot)).
Proof.
  induction events as [|[bot'|b] events IH]; cbn [Server.serve].
  - constructor.
  - exact IH.
  - constructor; [|exact IH].
    destruct (loaded_never_not_ready bot b) as [-> | ->]; discriminate.
Qed.

(** C9. A request that is served while the global is still empty ends with
    the abort of status 418: it is a response of the framework, not an
    exception that leaves the view unhandled and not the 500 of the handler.
    A request served with the model loaded ends with 200 or with 500, never
    with 418. So, along any run, the requests before the load all get 418 and
    none after it does. *)
Theorem not_ready_before_load :
  (forall b, Server.generate_response None b = Server.Aborted 418) /\
  (forall bot b,
     Server.status_of (Server.generate_response (Some bot) b) <> 418 /\
     Server.generate_response (Some bot) b <> Server.Aborted 418) /\
  (forall before bot after,
     Server.serve ((Server.Request <$> before) ++ Server.Loaded bot :: after) None =
     ((fun _ => Server.Aborted 418) <$> before) ++ Server.serve after (Some bot)) /\
  (forall bot events,
     Forall (fun r => Server.status_of r <> 418)
            (Server.serve events (Some bot))).
Proof.
  split; [reflexivity|]. split; [|split].
  - intros bot b.
    assert (H : Server.status_of (Server.generate_response (Some bot) b) <> 418).
    { destruct (loaded_never_not_ready bot b) as [-> | ->]; discriminate. }
    split; [exact H|]. intros Heq. rewrite Heq in H. by apply H.
  - intros before bot after. induction before as [|b before IH]; [reflexivity|].
    cbn [fmap list_fmap app Server.serve]. f_equal. exact IH.
  - intros bot events. apply serve_loaded.
Qed.

(** ** The two digit conventions, end to end *)

Lemma reserved_not_sub0 :
  Forall (fun k => forall t, has_digit t = true -> re_sub_DIGIT_RE "0" t <> k)
         _START_VOCAB.
Proof.
  repeat constructor; intros t Ht Heq;
    pose proof (sub0_has_zero t Ht) as H0; rewrite Heq in H0; discriminate.
Qed.

(** No entry of a vocabulary list built under digit normalization is the
    key that the encoder looks up for a token with a digit. *)
Lemma vocab_list_of_no_sub0 (lines : list string) (m : Z) (t : string) :
  has_digit t = true ->
  re_sub_DIGIT_RE "0" t ∉ vocab_list_of (counted true lines []) m.
Proof.
  intros Ht Hin.
  pose proof (vocab_list_of_keys
    (fun k => forall t, has_digit t = true -> re_sub_DIGIT_RE "0" t <> k)
    (counted true lines []) m reserved_not_sub0) as Hall.
  eapply Forall_forall in Hall; [by eapply Hall | | exact Hin].
  apply counted_keys; [|constructor].
  intros line. apply Forall_forall. intros t' _ t'' Ht''.
  by apply sub0_never_sub100.
Qed.

(** X21. With a vocabulary built under digit normalization and loaded again,
    no token with a digit is ever found: the build returns, with a cap of at
    least one the load after it returns, and in whatever the load returns
    the key that the encoder looks up is missing, so that the token gets
    [UNK_ID]. *)
Theorem digit_tokens_encode_to_unknown (vp dp : string) (m : Z) (w : world)
    (content : string) :
  files w !! vp = None ->
  files w !! dp = Some content ->
  exists w',
    create_vocabulary vp dp m true w = (Return tt, w') /\
    (1 <= m ->
     exists vocab rev_vocab,
       initialize_vocabulary vp w' = (Return (vocab, rev_vocab), w')) /\
    forall vocab rev_vocab,
      initialize_vocabulary vp w' = (Return (vocab, rev_vocab), w') ->
      forall t, has_digit t = true ->
        vocab !! re_sub_DIGIT_RE "0" t = None /\
        forall wd sentence,
          sentence_to_token_ids sentence vocab (TokFun (fun _ => WList [t])) true wd =
          (Return [Id UNK_ID], wd).
Proof.
  intros Hvp Hdp.
  destruct (build_then_load vp dp m true w content Hvp Hdp)
    as (w' & Hrun & Hnone & Hload).
  exists w'. split; [exact Hrun|]. split.
  - intros Hm. eexists _, _. apply Hload. by apply vocab_list_of_nonempty.
  - intros vocab rev_vocab Hinit t Ht.
    destruct (decide (vocab_list_of (counted true (gfile_lines content) []) m = []))
      as [Hnil|Hne].
    { rewrite (initialize_vocabulary_missing _ _ (Hnone Hnil)) in Hinit.
      discriminate. }
    rewrite (Hload Hne) in Hinit. injection Hinit as <- <-.
    assert (Hk : vocab_of (vocab_list_of (counted true (gfile_lines content) []) m)
                   !! re_sub_DIGIT_RE "0" t = None).
    { apply vocab_of_None. by apply vocab_list_of_no_sub0. }
    split; [exact Hk|].
    intros wd sentence. by rewrite sentence_to_token_ids_single, Hk.
Qed.

Lemma digit_tokens_encode_to_unknown_witness :
  exists w',
    create_vocabulary "vocab" "data" 100 true corpus_world = (Return tt, w') /\
    (1 <= 100 ->
     exists vocab rev_vocab,
       initialize_vocabulary "vocab" w' = (Return (vocab, rev_vocab), w')) /\
    forall vocab rev_vocab,
      initialize_vocabulary "vocab" w' = (Return (vocab, rev_vocab), w') ->
      forall t, has_digit t = true ->
        vocab !! re_sub_DIGIT_RE "0" t = None /\
        forall wd sentence,
          sentence_to_token_ids sentence vocab (TokFun (fun _ => WList [t])) true wd =
          (Return [Id UNK_ID], wd).
Proof.
  apply (digit_tokens_encode_to_unknown "vocab" "data" 100 corpus_world
           ("a b a 12" +:+ Py.nl +:+ "c a9, b" +:+ Py.nl));
    vm_compute; reflexivity.
Defined.

(** ** The tokenizer: shape of the tokens *)

(** [re.split] starts with a piece without separator and goes on with
    separators and such pieces. *)
Lemma re_split_pieces (f : string) :
  exists w ws,
    re_split_WORD_SPLIT f = w :: ws /\ split_free w = true /\ Forall piece ws.
Proof.
  induction f as [|c f (w & ws & Heq & Hw & Hws)]; cbn [re_split_WORD_SPLIT].
  - exists "", []. by repeat split.
  - destruct (word_split_char c) eqn:Hc.
    + exists "", (String c "" :: re_split_WORD_SPLIT f).
      split; [reflexivity|]. split; [reflexivity|].
      constructor; [right; eauto|]. rewrite Heq. constructor; [by left | exact Hws].
    + rewrite Heq. exists (String c w), ws. split; [reflexivity|].
      split; [|exact Hws]. cbn [split_free]. by rewrite Hc, Hw.
Qed.

Lemma re_split_Forall_piece (f : string) : Forall piece (re_split_WORD_SPLIT f).
Proof.
  destruct (re_split_pieces f) as (w & ws & -> & Hw & Hws).
  constructor; [by left | exact Hws].
Qed.

Lemma tokens_shape (sentence : string) :
  Forall token_shape (iter_words (basic_tokenizer sentence)).
Proof.
  pose proof (tokens_spaceless sentence) as Hsp.
  unfold basic_tokenizer in *.
  destruct (decide (Py.strip sentence = sentinel)) as [Hs|Hs].
  - rewrite Hs. vm_compute.
    repeat constructor; try discriminate.
  - cbn [iter_words] in *. apply Forall_forall. intros t Ht.
    split; [|split].
    + by apply list_elem_of_filter in Ht as [Hne _].
    + by eapply Forall_forall in Hsp.
    + apply list_elem_of_filter in Ht as [_ Ht].
      apply list_elem_of_bind in Ht as (f & Ht & _).
      pose proof (re_split_Forall_piece f) as Hp.
      by eapply Forall_forall in Hp.
Qed.

(** X1. Every token that the tokenizer yields, for any sentence, is not
    empty, holds no whitespace, and is either one punctuation character of
    the split class or a word without any such character. *)
Theorem tokens_well_shaped (sentence : string) :
  Forall token_shape (iter_words (basic_tokenizer sentence)).
Proof. apply tokens_shape. Qed.

(** ** The tokenizer loses whitespace only *)

Lemma concat_app (l1 l2 : list string) :
  Py.concat (l1 ++ l2) = Py.concat l1 +:+ Py.concat l2.
Proof.
  induction l1 as [|x l1 IH]; [reflexivity|].
  cbn [app Py.concat foldr]. fold (Py.concat (l1 ++ l2)). fold (Py.concat l1).
  by rewrite IH, app_assoc_s.
Qed.

Lemma concat_cons (x : string) (l : list string) :
  Py.concat (x :: l) = x +:+ Py.concat l.
Proof. reflexivity. Qed.

Lemma concat_split (s : string) : Py.concat (Py.split s) = remove_ws s.
Proof.
  induction s as [|c s IH]; [reflexivity|].
  cbn [Py.split remove_ws]. destruct (Py.isspace c); [exact IH|].
  destruct (Py.starts_word s).
  - destruct (Py.split s) as [|w ws].
    + rewrite <- IH. reflexivity.
    + rewrite <- IH. rewrite !concat_cons. by rewrite app_String.
  - rewrite concat_cons, IH. reflexivity.
Qed.

Lemma remove_ws_lstrip (s : string) : remove_ws (Py.lstrip s) = remove_ws s.
Proof.
  induction s as [|c s IH]; [reflexivity|].
  cbn [Py.lstrip]. destruct (Py.isspace c) eqn:Hc; [|reflexivity].
  cbn [remove_ws]. by rewrite Hc.
Qed.

Lemma remove_ws_rstrip (s : string) : remove_ws (Py.rstrip s) = remove_ws s.
Proof.
  induction s as [|c s IH]; [reflexivity|].
  cbn [Py.rstrip remove_ws]. rewrite <- IH.
  destruct (Py.rstrip s) as [|d r]; destruct (Py.isspace c) eqn:Hc;
    cbn [remove_ws]; by rewrite ?Hc.
Qed.

Lemma remove_ws_strip (s : string) : remove_ws (Py.strip s) = remove_ws s.
Proof. unfold Py.strip. by rewrite remove_ws_rstrip, remove_ws_lstrip. Qed.

Lemma remove_ws_spaceless (s : string) : spaceless s = true -> remove_ws s = s.
Proof.
  induction s as [|c s IH]; [reflexivity|]. cbn [spaceless remove_ws].
  intros H. apply andb_true_iff in H as [Hc Hs].
  destruct (Py.isspace c); [discriminate|]. by rewrite IH.
Qed.

Lemma concat_re_split (f : string) : Py.concat (re_split_WORD_SPLIT f) = f.
Proof.
  induction f as [|c f IH]; [reflexivity|]. cbn [re_split_WORD_SPLIT].
  destruct (word_split_char c).
  - rewrite !concat_cons, IH. reflexivity.
  - destruct (re_split_WORD_SPLIT f) as [|w ws].
    + rewrite <- IH. reflexivity.
    + rewrite <- IH, !concat_cons. by rewrite app_String.
Qed.

Lemma concat_filter_nonempty (l : list string) :
  Py.concat (filter (fun w => w <> "") l) = Py.concat l.
Proof.
  induction l as [|x l IH]; [reflexivity|].
  rewrite filter_cons. destruct (decide (x <> "")) as [Hx|Hx].
  - by rewrite !concat_cons, IH.
  - apply dec_stable in Hx. subst x. by rewrite concat_cons, IH.
Qed.

Lemma concat_bind_re_split (l : list string) :
  Py.concat (l ≫= re_split_WORD_SPLIT) = Py.concat l.
Proof.
  induction l as [|x l IH]; [reflexivity|].
  cbn [mbind list_bind]. rewrite concat_app, concat_cons, concat_re_split.
  f_equal. exact IH.
Qed.

Lemma concat_chars (s : string) : Py.concat (Py.chars s) = s.
Proof.
  induction s as [|c s IH]; [reflexivity|].
  cbn [Py.chars]. by rewrite concat_cons, IH.
Qed.

Lemma concat_tokens (sentence : string) :
  Py.concat (iter_words (basic_tokenizer sentence)) = remove_ws sentence.
Proof.
  unfold basic_tokenizer.
  destruct (decide (Py.strip sentence = sentinel)) as [Hs|Hs]; cbn [iter_words].
  - rewrite concat_chars, <- (remove_ws_strip sentence), Hs. reflexivity.
  - by rewrite concat_filter_nonempty, concat_bind_re_split, concat_split,
      remove_ws_strip.
Qed.

(** X2. Put end to end, the tokens of a sentence are the sentence without
    its whitespace: the tokenizer drops whitespace and nothing else, and it
    adds nothing. *)
Theorem tokens_concat (sentence : string) :
  Py.concat (iter_words (basic_tokenizer sentence)) = remove_ws sentence.
Proof. apply concat_tokens. Qed.

(** ** Blank sentences *)

Lemma remove_ws_empty (s : string) : remove_ws s = "" <-> all_space s = true.
Proof.
  induction s as [|c s IH]; [done|]. cbn [remove_ws all_space].
  destruct (Py.isspace c); [exact IH|]. split; discriminate.
Qed.

Lemma concat_empty (l : list string) :
  Forall (fun t => t <> "") l -> Py.concat l = "" -> l = [].
Proof.
  destruct 1 as [|t l Ht _]; [reflexivity|].
  rewrite concat_cons. destruct t; [done | discriminate].
Qed.

(** X3. A sentence yields no token exactly when it is empty or all
    whitespace; the encoder then returns the empty list of ids, whatever the
    vocabulary, and prints nothing. *)
Theorem blank_sentence_has_no_tokens (sentence : string) :
  (basic_tokenizer sentence = WList [] <-> all_space sentence = true) /\
  (all_space sentence = true ->
   forall vocabulary w,
     sentence_to_token_ids sentence vocabulary TokNone true w = (Return [], w)).
Proof.
  assert (Hiff : basic_tokenizer sentence = WList [] <-> all_space sentence = true).
  { rewrite <- remove_ws_empty, <- concat_tokens. split.
    - by intros ->.
    - intros Hc. pose proof (tokens_shape sentence) as Hshape.
      assert (Hnil : iter_words (basic_tokenizer sentence) = []).
      { apply concat_empty; [|exact Hc].
        eapply Forall_impl; [exact Hshape|]. by intros t [Hne _]. }
      unfold basic_tokenizer in *.
      destruct (decide (Py.strip sentence = sentinel)) as [Hs|Hs].
      + cbn [iter_words] in Hnil. rewrite Hs in Hnil. discriminate.
      + cbn [iter_words] in Hnil. by rewrite Hnil. }
  split; [exact Hiff|].
  intros Hall vocabulary w. apply Hiff in Hall.
  unfold sentence_to_token_ids. cbn [truthy]. cbv iota.
  rewrite run_bind. unfold ret at 1. unfold mret, M_ret. rewrite Hall.
  rewrite decide_False by discriminate. reflexivity.
Qed.

Lemma blank_sentence_has_no_tokens_witness :
  sentence_to_token_ids ("  " +:+ Py.nl) ∅ TokNone true (World ∅ []) =
  (Return [], World ∅ []).
Proof.
  apply (blank_sentence_has_no_tokens ("  " +:+ Py.nl)). reflexivity.
Defined.

(** ** Tokens joined by blanks tokenize to themselves *)

Lemma split_lstrip (s : string) : Py.split (Py.lstrip s) = Py.split s.
Proof.
  induction s as [|c s IH]; [reflexivity|].
  cbn [Py.lstrip]. destruct (Py.isspace c) eqn:Hc; [|reflexivity].
  rewrite IH. cbn [Py.split]. by rewrite Hc.
Qed.

Lemma starts_word_rstrip (s : string) :
  Py.rstrip s <> "" -> Py.starts_word (Py.rstrip s) = Py.starts_word s.
Proof.
  destruct s as [|c s]; [done|]. cbn [Py.rstrip].
  destruct (Py.rstrip s); [|reflexivity].
  destruct (Py.isspace c) eqn:Hc; [done|reflexivity].
Qed.

Lemma split_rstrip (s : string) : Py.split (Py.rstrip s) = Py.split s.
Proof.
  induction s as [|c s IH]; [reflexivity|].
  cbn [Py.rstrip]. destruct (Py.rstrip s) as [|d r] eqn:Hr.
  - cbn [Py.split] in IH. cbn [Py.split].
    destruct (Py.isspace c) eqn:Hc.
    + exact IH.
    + cbn [Py.split]. rewrite Hc. cbn [Py.starts_word Py.split].
      rewrite <- IH. by destruct (Py.starts_word s).
  - assert (Hsw : Py.starts_word (String d r) = Py.starts_word s).
    { rewrite <- Hr. apply starts_word_rstrip. rewrite Hr. discriminate. }
    cbn [Py.split]. rewrite <- IH, <- Hsw. reflexivity.
Qed.

(** [split] does not see what [strip] removes. *)
Lemma split_strip (s : string) : Py.split (Py.strip s) = Py.split s.
Proof. unfold Py.strip. by rewrite split_rstrip, split_lstrip. Qed.

Lemma split_single (w : string) :
  w <> "" -> spaceless w = true -> Py.split w = [w].
Proof.
  induction w as [|c w IH]; [done|]. intros _ H.
  cbn [spaceless] in H. apply andb_true_iff in H as [Hc Hw].
  apply negb_true_iff in Hc. cbn [Py.split]. rewrite Hc.
  destruct w as [|c' w]; [reflexivity|].
  pose proof Hw as Hw'. cbn [spaceless] in Hw'.
  apply andb_true_iff in Hw' as [Hc' _].
  cbn [Py.starts_word]. rewrite Hc'. by rewrite IH.
Qed.

Lemma split_word_blank (w rest : string) :
  w <> "" -> spaceless w = true ->
  Py.split (w +:+ " " +:+ rest) = w :: Py.split rest.
Proof.
  induction w as [|c w IH]; [done|]. intros _ H.
  cbn [spaceless] in H. apply andb_true_iff in H as [Hc Hw].
  apply negb_true_iff in Hc. rewrite app_String. cbn [Py.split]. rewrite Hc.
  destruct w as [|c' w].
  - rewrite app_empty, app_String, app_empty. reflexivity.
  - pose proof Hw as Hw'. cbn [spaceless] in Hw'.
    apply andb_true_iff in Hw' as [Hc' _].
    rewrite IH by done. rewrite app_String. cbn [Py.starts_word].
    by rewrite Hc'.
Qed.

Lemma split_join (l : list string) :
  Forall (fun t => t <> "" /\ spaceless t = true) l ->
  Py.split (Py.join " " l) = l.
Proof.
  induction 1 as [|w l [Hne Hsp] Hl IH]; [reflexivity|].
  destruct l as [|w' l].
  - by apply split_single.
  - change (Py.join " " (w :: w' :: l)) with (w +:+ " " +:+ Py.join " " (w' :: l)).
    rewrite split_word_blank by done. by rewrite IH.
Qed.

Lemma re_split_split_free (t : string) :
  split_free t = true -> re_split_WORD_SPLIT t = [t].
Proof.
  induction t as [|c t IH]; [reflexivity|]. cbn [split_free].
  intros H. apply andb_true_iff in H as [Hc Ht].
  apply negb_true_iff in Hc. cbn [re_split_WORD_SPLIT].
  by rewrite Hc, IH.
Qed.

Lemma re_split_token (t : string) :
  t <> "" -> piece t -> filter (fun w => w <> "") (re_split_WORD_SPLIT t) = [t].
Proof.
  intros Hne [Hfree | (c & Hc & ->)].
  - rewrite re_split_split_free by exact Hfree.
    rewrite filter_cons, decide_True by exact Hne. reflexivity.
  - cbn [re_split_WORD_SPLIT]. rewrite Hc. reflexivity.
Qed.

Lemma filter_bind_tokens (l : list string) :
  Forall token_shape l ->
  filter (fun w => w <> "") (l ≫= re_split_WORD_SPLIT) = l.
Proof.
  induction 1 as [|t l (Hne & _ & Hp) Hl IH]; [reflexivity|].
  rewrite bind_cons, filter_app, IH, re_split_token by done. reflexivity.
Qed.

(** X4. A list of well-shaped tokens, joined by single blanks, is tokenized
    to the same list (but for the list that is just the sentinel). The tokens of any
    sentence are well shaped, so they are a fixed point of joining and
    tokenizing again. *)
Theorem tokenize_joined_tokens (l : list string) :
  Forall token_shape l ->
  l <> [sentinel] ->
  basic_tokenizer (Py.join " " l) = WList l.
Proof.
  intros Hshape Hsent.
  assert (Hsplit : Py.split (Py.join " " l) = l).
  { apply split_join. eapply Forall_impl; [exact Hshape|].
    by intros t (Hne & Hsp & _). }
  unfold basic_tokenizer.
  destruct (decide (Py.strip (Py.join " " l) = sentinel)) as [Hs|Hs].
  - exfalso. apply Hsent. rewrite <- Hsplit, <- split_strip, Hs. reflexivity.
  - rewrite split_strip, Hsplit. f_equal. by apply filter_bind_tokens.
Qed.

Lemma tokenize_joined_tokens_witness :
  basic_tokenizer (Py.join " " ["don"; "'"; "t"; "stop"; "!"])
  = WList ["don"; "'"; "t"; "stop"; "!"].
Proof.
  apply tokenize_joined_tokens.
  - repeat (apply Forall_cons_2;
      [ split; [discriminate | split; [reflexivity|]];
        first [ left; reflexivity | right; eexists; split; [|reflexivity]; reflexivity ] | ]).
    apply Forall_nil_2.
  - discriminate.
Defined.

(** ** The counting dictionary *)

Lemma count_of_count_word (k word : string) (vocab : list (string * Z)) :
  count_of k (count_word word vocab) =
  if decide (k = word) then Some (default 0 (count_of word vocab) + 1)
  else count_of k vocab.
Proof.
  induction vocab as [|[k' n] vocab IH]; cbn [count_word count_of].
  - destruct (decide (word = k)) as [->|Hne].
    + by rewrite decide_True.
    + by rewrite decide_False by congruence.
  - destruct (decide (k' = word)) as [->|Hne]; cbn [count_of].
    + destruct (decide (word = k)) as [->|Hk].
      * by rewrite decide_True.
      * by rewrite decide_False by congruence.
    + destruct (decide (k' = k)) as [->|Hk].
      * by rewrite decide_False by congruence.
      * exact IH.
Qed.

Lemma count_word_fst (word : string) (vocab : list (string * Z)) :
  (count_word word vocab).*1 =
  if decide (word ∈ vocab.*1) then vocab.*1 else vocab.*1 ++ [word].
Proof.
  induction vocab as [|[k n] vocab IH]; cbn [count_word fmap list_fmap fst].
  - rewrite decide_False; [reflexivity | apply not_elem_of_nil].
  - destruct (decide (k = word)) as [->|Hne].
    + rewrite decide_True by apply list_elem_of_here. reflexivity.
    + cbn [fmap list_fmap fst]. fold (vocab.*1). fold ((count_word word vocab).*1).
      rewrite IH. destruct (decide (word ∈ vocab.*1)) as [Hin|Hin].
      * rewrite decide_True by (by apply list_elem_of_further). reflexivity.
      * rewrite decide_False; [reflexivity|].
        intros H. apply elem_of_cons in H as [->|H]; [done | by apply Hin].
Qed.

Lemma count_word_NoDup (word : string) (vocab : list (string * Z)) :
  NoDup vocab.*1 -> NoDup (count_word word vocab).*1.
Proof.
  intros H. rewrite count_word_fst.
  destruct (decide (word ∈ vocab.*1)) as [Hin|Hin]; [exact H|].
  apply NoDup_app. split; [exact H|]. split; [|apply NoDup_singleton].
  intros x Hx Hx'. apply list_elem_of_singleton in Hx'. by subst.
Qed.

Lemma counted_corpus_words (nd : bool) (lines : list string)
    (vocab : list (string * Z)) :
  counted nd lines vocab = foldl count_step vocab (corpus_words nd lines).
Proof.
  revert vocab. induction lines as [|line lines IH]; intros vocab; [reflexivity|].
  rewrite counted_cons, IH. unfold corpus_words. rewrite bind_cons, foldl_app.
  f_equal. by rewrite foldl_fmap.
Qed.

Lemma occurrences_cons (k w : string) (ws : list string) :
  occurrences k (w :: ws) =
  ((if decide (w = k) then 1 else 0) + occurrences k ws)%nat.
Proof.
  unfold occurrences. rewrite filter_cons. by destruct (decide (w = k)).
Qed.

Lemma occurrences_0 (k : string) (ws : list string) :
  occurrences k ws = 0%nat <-> k ∉ ws.
Proof.
  induction ws as [|w ws IH].
  - split; [intros _; apply not_elem_of_nil | reflexivity].
  - rewrite occurrences_cons, not_elem_of_cons.
    destruct (decide (w = k)) as [->|Hne].
    + split; [discriminate | by intros [? _]].
    + rewrite Nat.add_0_l, IH. split; [by split | by intros [_ ?]].
Qed.

Lemma foldl_count_NoDup (ws : list string) (vocab : list (string * Z)) :
  NoDup vocab.*1 -> NoDup (foldl count_step vocab ws).*1.
Proof.
  revert vocab. induction ws as [|w ws IH]; intros vocab H; [exact H|].
  cbn [foldl]. apply IH. by apply count_word_NoDup.
Qed.

Lemma foldl_count_of (k : string) (ws : list string) (vocab : list (string * Z)) :
  count_of k (foldl count_step vocab ws) =
  if decide (occurrences k ws = 0%nat) then count_of k vocab
  else Some (default 0 (count_of k vocab) + Z.of_nat (occurrences k ws)).
Proof.
  revert vocab. induction ws as [|w ws IH]; intros vocab; [reflexivity|].
  cbn [foldl]. rewrite IH, occurrences_cons.
  change (count_step vocab w) with (count_word w vocab).
  rewrite count_of_count_word.
  destruct (decide (w = k)) as [->|Hne].
  - destruct (decide (k = k)); [|done].
    repeat case_decide; try lia; cbn [default]; apply (f_equal Some); unfold id; lia.
  - destruct (decide (k = w)); [congruence|]. by rewrite Nat.add_0_l.
Qed.

(** The counts of the corpus: one entry per distinct word, holding the
    number of times the word was met. *)
Lemma counted_spec (nd : bool) (lines : list string) :
  NoDup (counted nd lines []).*1 /\
  forall k,
    count_of k (counted nd lines []) =
    if decide (k ∈ corpus_words nd lines)
    then Some (Z.of_nat (occurrences k (corpus_words nd lines))) else None.
Proof.
  rewrite counted_corpus_words. split.
  - apply foldl_count_NoDup. constructor.
  - intros k. rewrite foldl_count_of. cbn [count_of default].
    destruct (decide (occurrences k (corpus_words nd lines) = 0%nat)) as [H0|H0].
    + rewrite decide_False; [reflexivity|]. by apply occurrences_0.
    + rewrite decide_True; [by rewrite Z.add_0_l|].
      apply dec_stable. intros Hn. by apply occurrences_0 in Hn.
Qed.

(** X5. The loop of the builder counts right: it never raises, touches no
    file, and leaves a dictionary with distinct keys in which the count of a
    word is the number of tokens of the data whose counted form (the token,
    or the token with digits replaced under normalization) is that word;
    words that were not met have no entry. *)
Theorem count_lines_counts (nd : bool) (lines : list string) (w : world) :
  exists vocab out,
    count_lines nd lines 0 [] w = (Return vocab, World (files w) out) /\
    NoDup vocab.*1 /\
    forall k,
      count_of k vocab =
      if decide (k ∈ corpus_words nd lines)
      then Some (Z.of_nat (occurrences k (corpus_words nd lines))) else None.
Proof.
  destruct (count_lines_run nd lines 0 [] w) as [out Hrun].
  destruct (counted_spec nd lines) as [Hnd Hcount].
  by exists (counted nd lines []), out.
Qed.

(** ** The ranking *)

Lemma insert_desc_perm (x : string * Z) (l : list (string * Z)) :
  insert_desc x l ≡ₚ x :: l.
Proof.
  induction l as [|y l IH]; cbn [insert_desc]; [reflexivity|].
  destruct (x.2 <? y.2); [|reflexivity].
  rewrite IH. apply Permutation_swap.
Qed.

Lemma sorted_desc_perm (vocab : list (string * Z)) : sorted_desc vocab ≡ₚ vocab.
Proof.
  induction vocab as [|x vocab IH]; [reflexivity|].
  unfold sorted_desc. cbn [foldr]. fold (sorted_desc vocab).
  by rewrite insert_desc_perm, IH.
Qed.

Lemma insert_desc_sorted (x : string * Z) (l : list (string * Z)) :
  StronglySorted by_count_desc l -> StronglySorted by_count_desc (insert_desc x l).
Proof.
  induction l as [|y l IH]; cbn [insert_desc]; intros Hs.
  - repeat constructor.
  - apply StronglySorted_cons in Hs as [Hy Hl].
    destruct (x.2 <? y.2) eqn:Hlt.
    + apply Z.ltb_lt in Hlt. apply StronglySorted_cons. split; [|by apply IH].
      rewrite insert_desc_perm. constructor; [unfold by_count_desc; lia | exact Hy].
    + apply Z.ltb_ge in Hlt. apply StronglySorted_cons. split.
      * constructor; [exact Hlt|].
        eapply Forall_impl; [exact Hy|]. unfold by_count_desc. intros z Hz. lia.
      * by apply StronglySorted_cons.
Qed.

Lemma sorted_desc_sorted (vocab : list (string * Z)) :
  StronglySorted by_count_desc (sorted_desc vocab).
Proof.
  induction vocab as [|x vocab IH]; [constructor|].
  unfold sorted_desc. cbn [foldr]. by apply insert_desc_sorted.
Qed.

Lemma insert_desc_filter (c : Z) (x : string * Z) (l : list (string * Z)) :
  filter (fun y => y.2 = c) (insert_desc x l) = filter (fun y => y.2 = c) (x :: l).
Proof.
  induction l as [|y l IH]; cbn [insert_desc]; [reflexivity|].
  destruct (x.2 <? y.2) eqn:Hlt; [|reflexivity].
  apply Z.ltb_lt in Hlt.
  rewrite (filter_cons _ y), IH, !(filter_cons _ x), (filter_cons _ y).
  repeat case_decide; try lia; reflexivity.
Qed.

(** X6. The ranking [sorted(vocab, key=vocab.get, reverse=True)] holds the
    same entries as the dictionary, by falling count, and entries of equal
    count keep the order in which the dictionary holds them. *)
Theorem sorted_desc_ranks (vocab : list (string * Z)) :
  sorted_desc vocab ≡ₚ vocab /\
  StronglySorted (fun x y => y.2 <= x.2) (sorted_desc vocab) /\
  forall c,
    filter (fun y => y.2 = c) (sorted_desc vocab) = filter (fun y => y.2 = c) vocab.
Proof.
  split; [apply sorted_desc_perm|]. split; [apply sorted_desc_sorted|].
  intros c. induction vocab as [|x vocab IH]; [reflexivity|].
  unfold sorted_desc. cbn [foldr]. fold (sorted_desc vocab).
  by rewrite insert_desc_filter, !(filter_cons _ x), IH.
Qed.

(** ** The entries of the vocabulary file *)

Lemma vocab_list_of_take (vocab : list (string * Z)) (m : Z) :
  0 <= m ->
  vocab_list_of vocab m =
  take (Z.to_nat m) (_START_VOCAB ++ (sorted_desc vocab).*1).
Proof.
  intros Hm. unfold vocab_list_of. cbv zeta.
  destruct (_ >? m) eqn:Hgt.
  - unfold Py.slice_to. apply Z.leb_le in Hm. by rewrite Hm.
  - rewrite Z.gtb_ltb in Hgt. apply Z.ltb_ge in Hgt.
    symmetry. apply take_ge. lia.
Qed.



(** ** The cap keeps the most frequent words *)

Lemma kept_words (vocab : list (string * Z)) (m : Z) :
  0 <= m ->
  drop 4 (vocab_list_of vocab m) =
  (take (Z.to_nat m - 4) (sorted_desc vocab)).*1.
Proof.
  intros Hm. rewrite vocab_list_of_take by exact Hm. rewrite fmap_take.
  destruct (decide (4 <= Z.to_nat m)%nat) as [Hge|Hlt].
  - replace (Z.to_nat m) with (4 + (Z.to_nat m - 4))%nat at 1 by lia.
    rewrite <- take_drop_commute. by rewrite (drop_app_length' _START_VOCAB).
  - replace (Z.to_nat m - 4)%nat with 0%nat by lia. rewrite take_0.
    apply drop_ge. rewrite length_take. lia.
Qed.

Lemma count_of_elem_of (k : string) (c : Z) (vocab : list (string * Z)) :
  count_of k vocab = Some c -> (k, c) ∈ vocab.
Proof.
  induction vocab as [|[k' n] vocab IH]; cbn [count_of]; [discriminate|].
  destruct (decide (k' = k)) as [->|Hne].
  - intros [= ->]. apply list_elem_of_here.
  - intros H. apply list_elem_of_further. by apply IH.
Qed.

Lemma elem_of_count_of (k : string) (c : Z) (vocab : list (string * Z)) :
  NoDup vocab.*1 -> (k, c) ∈ vocab -> count_of k vocab = Some c.
Proof.
  induction vocab as [|[k' n] vocab IH]; cbn [count_of fmap list_fmap fst].
  - intros _ H. by apply elem_of_nil in H.
  - intros Hnd H. apply NoDup_cons in Hnd as [Hk' Hnd].
    apply elem_of_cons in H as [[= -> ->]|H].
    + by rewrite decide_True.
    + destruct (decide (k' = k)) as [->|Hne]; [|by apply IH].
      exfalso. apply Hk'. apply list_elem_of_fmap. by exists (k, c).
Qed.

(** X8. The cap keeps the most frequent words: after a build that runs (cap
    at least one), if a word is among the entries of the vocabulary file
    after the four reserved ones, then so is every word that the data holds
    more often. *)
Theorem most_frequent_words_kept (vp dp : string) (m : Z) (nd : bool)
    (w : world) (content : string) :
  files w !! vp = None ->
  files w !! dp = Some content ->
  1 <= m ->
  exists w' vocab rev_vocab,
    create_vocabulary vp dp m nd w = (Return tt, w') /\
    initialize_vocabulary vp w' = (Return (vocab, rev_vocab), w') /\
    forall a b,
      (occurrences a (corpus_words nd (gfile_lines content)) <
       occurrences b (corpus_words nd (gfile_lines content)))%nat ->
      a ∈ drop 4 rev_vocab -> b ∈ drop 4 rev_vocab.
Proof.
  intros Hvp Hdp Hm1.
  destruct (build_then_load_capped vp dp m nd w content Hvp Hdp Hm1)
    as (w' & Hrun & Hload).
  assert (Hm : 0 <= m) by lia.
  eexists w', _, _. split; [exact Hrun|]. split; [exact Hload|].
  set (lines := gfile_lines content).
  destruct (counted_spec nd lines) as [Hnd Hcount].
  set (v := counted nd lines []) in *. set (n := (Z.to_nat m - 4)%nat).
  intros a b Hlt. rewrite kept_words by exact Hm. fold n.
  intros Ha. apply list_elem_of_fmap in Ha as ([a' ca] & Heq & Ha).
  cbn [fst] in Heq. subst a'.
  assert (Hav : (a, ca) ∈ v).
  { rewrite <- (sorted_desc_perm v).
    pose proof Ha as Ha'. apply elem_of_take in Ha' as (i & Hi & _).
    apply list_elem_of_lookup. eauto. }
  apply elem_of_count_of in Hav; [|exact Hnd].
  rewrite Hcount in Hav.
  destruct (decide (a ∈ corpus_words nd lines)); [|discriminate].
  injection Hav as Hca.
  assert (Hbv : (b, Z.of_nat (occurrences b (corpus_words nd lines))) ∈ sorted_desc v).
  { rewrite (sorted_desc_perm v). apply count_of_elem_of. rewrite Hcount.
    rewrite decide_True; [reflexivity|].
    apply dec_stable. intros Hn. apply occurrences_0 in Hn. lia. }
  rewrite <- (take_drop n (sorted_desc v)) in Hbv.
  apply elem_of_app in Hbv as [Hb|Hb].
  - apply list_elem_of_fmap. by eexists (b, _).
  - exfalso.
    pose proof (sorted_desc_sorted v) as Hs.
    rewrite <- (take_drop n (sorted_desc v)) in Hs.
    pose proof (StronglySorted_app_1_elem_of _ _ _ _ _ Hs Ha Hb) as Hr.
    unfold by_count_desc in Hr. cbn [snd] in Hr. lia.
Qed.

Lemma most_frequent_words_kept_witness :
  exists w' vocab rev_vocab,
    create_vocabulary "vocab" "data" 6 true corpus_world = (Return tt, w') /\
    initialize_vocabulary "vocab" w' = (Return (vocab, rev_vocab), w') /\
    forall a b,
      (occurrences a (corpus_words true
         (gfile_lines ("a b a 12" +:+ Py.nl +:+ "c a9, b" +:+ Py.nl))) <
       occurrences b (corpus_words true
         (gfile_lines ("a b a 12" +:+ Py.nl +:+ "c a9, b" +:+ Py.nl))))%nat ->
      a ∈ drop 4 rev_vocab -> b ∈ drop 4 rev_vocab.
Proof.
  apply (most_frequent_words_kept "vocab" "data" 6 true corpus_world).
  - vm_compute. reflexivity.
  - vm_compute. reflexivity.
  - lia.
Defined.

(** ** The loader: the last line of a token gives its id *)

Lemma vocab_of_last (l : list string) (k : string) (i : Z) :
  vocab_of l !! k = Some i ->
  forall j, l !! j = Some k -> (j <= Z.to_nat i)%nat.
Proof.
  revert i. induction l as [|x l IH] using rev_ind; intros i.
  - unfold vocab_of, Py.dict. simpl. by rewrite lookup_empty.
  - rewrite vocab_of_snoc.
    destruct (decide (x = k)) as [->|Hne].
    + rewrite lookup_insert_eq. intros [= <-] j Hj.
      apply lookup_lt_Some in Hj. rewrite length_app in Hj. simpl in Hj.
      rewrite Nat2Z.id. lia.
    + rewrite lookup_insert_ne by exact Hne. intros H j Hj.
      apply (IH _ H). apply lookup_app_Some in Hj as [Hj | [_ Hj]]; [exact Hj|].
      destruct (j - length l)%nat; [|done]. simpl in Hj. congruence.
Qed.

(** X9. The loader returns the stripped lines of the file, as the file
    reader yields them (without carriage returns). In the dictionary, the id
    of a token is the number of the last line that holds it (lines counted
    from 0, compared after stripping): a token on several lines gets the
    last one, and a token on no line has no id. *)
Theorem initialize_vocabulary_last_line (vp : string) (w : world)
    (content : string) :
  files w !! vp = Some content ->
  exists vocab rev_vocab,
    initialize_vocabulary vp w = (Return (vocab, rev_vocab), w) /\
    rev_vocab = Py.strip <$> gfile_lines content /\
    forall k,
      (k ∉ rev_vocab -> vocab !! k = None) /\
      forall i : nat,
        vocab !! k = Some (Z.of_nat i) <->
        rev_vocab !! i = Some k /\
        forall j, rev_vocab !! j = Some k -> (j <= i)%nat.
Proof.
  intros Hvp. eexists _, _.
  split; [by apply initialize_vocabulary_present|]. split; [reflexivity|].
  set (rev_vocab := Py.strip <$> gfile_lines content).
  fold (vocab_of rev_vocab). intros k.
  split; [by apply vocab_of_None|]. intros i. split.
  - intros H. split.
    + apply vocab_of_Some in H as [_ H]. by rewrite Nat2Z.id in H.
    + intros j Hj. pose proof (vocab_of_last _ _ _ H j Hj) as Hle.
      by rewrite Nat2Z.id in Hle.
  - intros [Hi Hlast].
    destruct (vocab_of rev_vocab !! k) as [i'|] eqn:Hk.
    + pose proof (vocab_of_Some _ _ _ Hk) as [Hrange Hi'].
      pose proof (vocab_of_last _ _ _ Hk i Hi) as H1.
      pose proof (Hlast _ Hi') as H2. f_equal. lia.
    + apply vocab_of_None in Hk. exfalso. apply Hk.
      apply list_elem_of_lookup. eauto.
Qed.

Lemma initialize_vocabulary_last_line_witness :
  let w := World {[ "vocab" := "a" +:+ Py.nl +:+ "b" +:+ Py.nl +:+ "a" +:+ Py.nl ]} [] in
  exists vocab rev_vocab,
    initialize_vocabulary "vocab" w = (Return (vocab, rev_vocab), w) /\
    rev_vocab = Py.strip <$> gfile_lines ("a" +:+ Py.nl +:+ "b" +:+ Py.nl +:+ "a" +:+ Py.nl) /\
    forall k,
      (k ∉ rev_vocab -> vocab !! k = None) /\
      forall i : nat,
        vocab !! k = Some (Z.of_nat i) <->
        rev_vocab !! i = Some k /\
        forall j, rev_vocab !! j = Some k -> (j <= i)%nat.
Proof.
  intros w. apply (initialize_vocabulary_last_line "vocab" w). reflexivity.
Defined.

(** ** A line of the data, encoded and decoded *)

Lemma has_digit_app (a b : string) :
  has_digit (a +:+ b) = has_digit a || has_digit b.
Proof.
  induction a as [|c a IH]; [reflexivity|].
  rewrite app_String. cbn [has_digit]. by rewrite IH, orb_assoc.
Qed.

Lemma has_digit_remove_ws (s : string) :
  has_digit s = false -> has_digit (remove_ws s) = false.
Proof.
  induction s as [|c s IH]; [done|]. cbn [has_digit remove_ws].
  intros H. apply orb_false_iff in H as [Hc Hs].
  destruct (Py.isspace c); [by apply IH|].
  cbn [has_digit]. by rewrite Hc, IH.
Qed.

Lemma has_digit_concat (l : list string) :
  has_digit (Py.concat l) = false -> Forall (fun t => has_digit t = false) l.
Proof.
  induction l as [|t l IH]; [constructor|].
  rewrite concat_cons, has_digit_app. intros H.
  apply orb_false_iff in H as [Ht Hl]. constructor; [exact Ht | by apply IH].
Qed.

(** The tokens of a sentence without digits have no digits. *)
Lemma tokens_digit_free (sentence : string) :
  has_digit sentence = false ->
  Forall (fun t => has_digit t = false) (iter_words (basic_tokenizer sentence)).
Proof.
  intros H. apply has_digit_concat. rewrite concat_tokens.
  by apply has_digit_remove_ws.
Qed.

Lemma corpus_words_elem_of (nd : bool) (lines : list string) (line t : string) :
  line ∈ lines -> t ∈ iter_words (basic_tokenizer line) ->
  counted_word nd t ∈ corpus_words nd lines.
Proof.
  intros Hline Ht. unfold corpus_words. apply list_elem_of_bind.
  exists line. split; [|exact Hline]. by apply list_elem_of_fmap_2.
Qed.

(** X10. With a cap that cuts nothing (at least four plus the number of
    distinct words), a line read from the data file that has no digit and is
    not the sentinel is encoded without loss against the vocabulary built from the
    data: every id is at least 4, so none is a reserved one or UNK_ID, and
    the reverse vocabulary maps the ids back to the tokens of the line. *)
Theorem corpus_line_round_trip (vp dp : string) (m : Z) (nd : bool)
    (w : world) (content line : string) :
  files w !! vp = None ->
  files w !! dp = Some content ->
  4 + Z.of_nat (length (counted nd (gfile_lines content) [])) <= m ->
  line ∈ gfile_lines content ->
  has_digit line = false ->
  Py.strip line <> sentinel ->
  exists w' vocab rev_vocab ids,
    create_vocabulary vp dp m nd w = (Return tt, w') /\
    initialize_vocabulary vp w' = (Return (vocab, rev_vocab), w') /\
    (forall w1, sentence_to_token_ids line vocab TokNone true w1 =
                (Return (Id <$> ids), w1)) /\
    Forall (fun i => 4 <= i) ids /\
    Py.getitem rev_vocab <$> ids = Some <$> iter_words (basic_tokenizer line).
Proof.
  intros Hvp Hdp Hcap Hline Hdigit Hsent.
  destruct (build_then_load_capped vp dp m nd w content Hvp Hdp ltac:(lia))
    as (w' & Hrun & Hload).
  set (lines := gfile_lines content) in *.
  destruct (counted_spec nd lines) as [Hnd Hcount].
  set (v := counted nd lines []) in *.
  set (rev := vocab_list_of v m) in *.
  assert (Hrev : rev = _START_VOCAB ++ (sorted_desc v).*1).
  { unfold rev. rewrite vocab_list_of_take by lia. apply take_ge.
    rewrite length_app, length_fmap, (sorted_desc_perm v).
    unfold _START_VOCAB. cbn [length]. lia. }
  set (key := fun t : string => default UNK_ID (vocab_of rev !! re_sub_DIGIT_RE "0" t)).
  exists w', (vocab_of rev), rev, (key <$> iter_words (basic_tokenizer line)).
  split; [exact Hrun|]. split; [exact Hload|]. split.
  { intros w1. rewrite sentence_to_token_ids_falsy by reflexivity.
    unfold encode_normalized. by rewrite decide_False by exact Hsent. }
  assert (Htok : Forall (fun t => 4 <= key t /\ Py.getitem rev (key t) = Some t)
                   (iter_words (basic_tokenizer line))).
  { pose proof (tokens_digit_free line Hdigit) as Hfree.
    apply Forall_forall. intros t Ht.
    assert (Ht0 : has_digit t = false) by (by eapply Forall_forall in Hfree).
    assert (Hin : t ∈ corpus_words nd lines).
    { pose proof (corpus_words_elem_of nd lines line t Hline Ht) as H.
      unfold counted_word in H. destruct nd; [|exact H].
      by rewrite sub_digit_free in H. }
    assert (Hkeys : t ∈ (sorted_desc v).*1).
    { specialize (Hcount t). rewrite decide_True in Hcount by exact Hin.
      apply count_of_elem_of in Hcount. rewrite <- (sorted_desc_perm v) in Hcount.
      apply list_elem_of_fmap. by eexists (t, _). }
    apply list_elem_of_lookup in Hkeys as [j Hj].
    assert (Hrevj : rev !! (4 + j)%nat = Some t).
    { rewrite Hrev, (lookup_app_r _START_VOCAB)
        by (unfold _START_VOCAB; cbn [length]; lia).
      by replace (4 + j - length _START_VOCAB)%nat with j
        by (unfold _START_VOCAB; cbn [length]; lia). }
    unfold key. rewrite sub_digit_free by exact Ht0.
    destruct (vocab_of rev !! t) as [i|] eqn:Hi.
    - simpl. pose proof (vocab_of_Some _ _ _ Hi) as [Hrange Hl].
      pose proof (vocab_of_last _ _ _ Hi _ Hrevj) as Hlast.
      split; [lia|]. by rewrite getitem_in_range.
    - apply vocab_of_None in Hi. exfalso. apply Hi.
      apply list_elem_of_lookup. eauto. }
  split.
  - apply Forall_fmap. eapply Forall_impl; [exact Htok|]. by intros t [H _].
  - rewrite <- list_fmap_compose. apply Forall_fmap_ext_1.
    eapply Forall_impl; [exact Htok|]. by intros t [_ H].
Qed.

Lemma corpus_line_round_trip_witness :
  let content := "a, b a" +:+ Py.nl +:+ "c 12" +:+ Py.nl in
  exists w' vocab rev_vocab ids,
    create_vocabulary "vocab" "data" 20 true (World {[ "data" := content ]} [])
      = (Return tt, w') /\
    initialize_vocabulary "vocab" w' = (Return (vocab, rev_vocab), w') /\
    (forall w1, sentence_to_token_ids ("a, b a" +:+ Py.nl) vocab TokNone true w1 =
                (Return (Id <$> ids), w1)) /\
    Forall (fun i => 4 <= i) ids /\
    Py.getitem rev_vocab <$> ids =
      Some <$> iter_words (basic_tokenizer ("a, b a" +:+ Py.nl)).
Proof.
  intros content.
  apply (corpus_line_round_trip "vocab" "data" 20 true
           (World {[ "data" := content ]} []) content).
  - vm_compute. reflexivity.
  - vm_compute. reflexivity.
  - vm_compute. discriminate.
  - vm_compute. apply list_elem_of_here.
  - vm_compute. reflexivity.
  - vm_compute. discriminate.
Defined.

(** ** The two digit conventions, in the builder and in the encoder *)

Lemma sentinel_digit_free :
  Forall (fun t => has_digit t = false) (iter_words (WStr sentinel)).
Proof. vm_compute. repeat constructor. Qed.

(** A line with a token that holds a digit is not the sentinel. *)
Lemma digit_token_not_sentinel (line t : string) :
  t ∈ iter_words (basic_tokenizer line) -> has_digit t = true ->
  Py.strip line <> sentinel.
Proof.
  intros Ht Hd Hs. unfold basic_tokenizer in Ht.
  rewrite decide_True, Hs in Ht by exact Hs.
  pose proof sentinel_digit_free as Hall.
  eapply Forall_forall in Hall; [|exact Ht]. congruence.
Qed.

(** C3. Under digit normalization the builder and the encoder use two
    placeholders. For a token with a digit on a line of the data file, a
    build that runs writes the dump of its counts (the file beside the
    vocabulary, with "complete" appended to the path) with an entry for the
    token with each digit replaced by "100", met at least once, and with no
    entry for the token with each digit replaced by "0"; the encoder of
    that line looks every token up with each digit replaced by "0"; and the
    two strings differ. *)
Theorem digit_placeholders_differ (vp dp : string) (m : Z) (w : world)
    (content line t : string) :
  files w !! vp = None ->
  files w !! dp = Some content ->
  line ∈ gfile_lines content ->
  t ∈ iter_words (basic_tokenizer line) ->
  has_digit t = true ->
  (exists w' dump n,
     create_vocabulary vp dp m true w = (Return tt, w') /\
     files w' !! (vp +:+ "complete") =
       Some (Py.concat ((fun wn : string * Z =>
                           wn.1 +:+ ":" +:+ pretty wn.2 +:+ Py.nl) <$> dump)) /\
     (re_sub_DIGIT_RE "100" t, n) ∈ dump /\ 1 <= n /\
     forall k c, (k, c) ∈ dump -> k <> re_sub_DIGIT_RE "0" t) /\
  (forall vocabulary w0,
     sentence_to_token_ids line vocabulary TokNone true w0 =
     (Return (Id <$> ((fun t' => default UNK_ID
                                   (vocabulary !! re_sub_DIGIT_RE "0" t'))
                        <$> iter_words (basic_tokenizer line))), w0)) /\
  re_sub_DIGIT_RE "100" t <> re_sub_DIGIT_RE "0" t.
Proof.
  intros Hvp Hdp Hline Ht Hd. split; [|split].
  - destruct (create_vocabulary_fresh vp dp m true w content Hvp Hdp) as [out Hrun].
    set (lines := gfile_lines content) in *.
    destruct (counted_spec true lines) as [Hnd Hcount].
    set (v := counted true lines []) in *.
    pose proof (corpus_words_elem_of true lines line t Hline Ht) as Hin.
    change (counted_word true t) with (re_sub_DIGIT_RE "100" t) in Hin.
    specialize (Hcount (re_sub_DIGIT_RE "100" t)).
    rewrite decide_True in Hcount by exact Hin.
    apply count_of_elem_of in Hcount. rewrite <- (sorted_desc_perm v) in Hcount.
    eexists _, (sorted_desc v), _. split; [exact Hrun|]. cbn [files].
    split; [|split; [exact Hcount|split]].
    + rewrite written_file_other
        by (intros H; symmetry in H; by apply complete_path_differs in H).
      apply written_file_same. intros H. apply fmap_nil_inv in H.
      rewrite H in Hcount. by apply elem_of_nil in Hcount.
    + assert (H0 : occurrences (re_sub_DIGIT_RE "100" t) (corpus_words true lines)
                   <> 0%nat).
      { intros H0. by apply occurrences_0 in H0. }
      lia.
    + intros k c Hk Heq.
      assert (Hall : Forall (fun k => k <> re_sub_DIGIT_RE "0" t) (sorted_desc v).*1).
      { apply sorted_desc_keys. apply counted_keys; [|constructor].
        intros line'. apply Forall_forall. intros t' _ Heq'.
        symmetry in Heq'. by apply sub0_never_sub100 in Heq'. }
      eapply Forall_forall in Hall; [by apply Hall|].
      apply list_elem_of_fmap. by exists (k, c).
  - intros vocabulary w0.
    rewrite sentence_to_token_ids_falsy by reflexivity.
    unfold encode_normalized.
    by rewrite decide_False by (by eapply digit_token_not_sentinel).
  - intros Heq. symmetry in Heq. by apply sub0_never_sub100 in Heq.
Qed.

Lemma digit_placeholders_differ_witness :
  (exists w' dump n,
     create_vocabulary "vocab" "data" 6 true corpus_world = (Return tt, w') /\
     files w' !! ("vocab" +:+ "complete") =
       Some (Py.concat ((fun wn : string * Z =>
                           wn.1 +:+ ":" +:+ pretty wn.2 +:+ Py.nl) <$> dump)) /\
     (re_sub_DIGIT_RE "100" "a9", n) ∈ dump /\ 1 <= n /\
     forall k c, (k, c) ∈ dump -> k <> re_sub_DIGIT_RE "0" "a9") /\
  (forall vocabulary w0,
     sentence_to_token_ids ("c a9, b" +:+ Py.nl) vocabulary TokNone true w0 =
     (Return (Id <$> ((fun t' => default UNK_ID
                                   (vocabulary !! re_sub_DIGIT_RE "0" t'))
                        <$> iter_words (basic_tokenizer ("c a9, b" +:+ Py.nl)))),
      w0)) /\
  re_sub_DIGIT_RE "100" "a9" <> re_sub_DIGIT_RE "0" "a9".
Proof.
  apply (digit_placeholders_differ "vocab" "data" 6 corpus_world
           ("a b a 12" +:+ Py.nl +:+ "c a9, b" +:+ Py.nl)).
  - vm_compute. reflexivity.
  - vm_compute. reflexivity.
  - vm_compute. apply list_elem_of_further, list_elem_of_here.
  - vm_compute. apply list_elem_of_further, list_elem_of_here.
  - reflexivity.
Defined.

(** ** The file encoder: failures *)

(** X11. A missing data file makes the builder and the file encoder raise
    before they create anything: the error names the data path, the message
    is printed, and no file is created or changed (so that a later call
    runs again). *)
Theorem missing_data_file_changes_nothing (vp dp : string) (nd : bool) (w : world) :
  files w !! dp = None ->
  (forall m,
     files w !! vp = None ->
     create_vocabulary vp dp m nd w =
     (Raise (NotFoundError dp),
      World (files w)
        (stdout w ++ ["Creating vocabulary " +:+ vp +:+ " from data " +:+ dp]))) /\
  (forall tp,
     files w !! tp = None ->
     is_Some (files w !! vp) ->
     data_to_token_ids dp tp vp nd w =
     (Raise (NotFoundError dp),
      World (files w) (stdout w ++ ["Tokenizing data in " +:+ dp]))).
Proof.
  intros Hdp. split.
  - intros m Hvp. unfold create_vocabulary.
    rewrite run_bind, (exists_false _ _ Hvp). cbn [negb].
    rewrite run_bind. unfold print at 1.
    rewrite run_bind. unfold gfile_read at 1. cbn [files]. by rewrite Hdp.
  - intros tp Htp [cv Hvp]. unfold data_to_token_ids.
    rewrite run_bind, (exists_false _ _ Htp). cbn [negb].
    rewrite run_bind. unfold print at 1.
    rewrite run_bind, (initialize_vocabulary_present _ _ cv) by exact Hvp.
    cbv beta iota.
    rewrite run_bind. unfold gfile_read at 1. cbn [files]. by rewrite Hdp.
Qed.

Lemma missing_data_file_changes_nothing_witness :
  data_to_token_ids "absent" "ids" "vocab" false prepared_world =
  (Raise (NotFoundError "absent"),
   World (files prepared_world)
     (stdout prepared_world ++ ["Tokenizing data in absent"])).
Proof.
  apply (missing_data_file_changes_nothing "vocab" "absent" false prepared_world).
  - vm_compute. reflexivity.
  - vm_compute. reflexivity.
  - vm_compute. eauto.
Defined.

Lemma data_to_token_ids_present (dp tp vp : string) (nd : bool) (w : world) :
  is_Some (files w !! tp) -> data_to_token_ids dp tp vp nd w = (Return tt, w).
Proof.
  intros [c Hc]. unfold data_to_token_ids.
  by rewrite run_bind, (exists_true _ _ _ Hc).
Qed.

Lemma data_to_token_ids_no_vocabulary (dp tp vp : string) (nd : bool) (w : world) :
  files w !! tp = None -> files w !! vp = None ->
  data_to_token_ids dp tp vp nd w =
  (Raise (ValueError ["Vocabulary file %s not found."; vp]),
   World (files w) (stdout w ++ ["Tokenizing data in " +:+ dp])).
Proof.
  intros Htp Hvp. unfold data_to_token_ids.
  rewrite run_bind, (exists_false _ _ Htp). cbn [negb].
  rewrite run_bind. unfold print at 1.
  rewrite run_bind, initialize_vocabulary_missing by exact Hvp. reflexivity.
Qed.

Lemma data_to_token_ids_no_data (dp tp vp : string) (nd : bool) (w : world) :
  files w !! tp = None -> is_Some (files w !! vp) -> files w !! dp = None ->
  data_to_token_ids dp tp vp nd w =
  (Raise (NotFoundError dp),
   World (files w) (stdout w ++ ["Tokenizing data in " +:+ dp])).
Proof.
  intros Htp [cv Hvp] Hdp. unfold data_to_token_ids.
  rewrite run_bind, (exists_false _ _ Htp). cbn [negb].
  rewrite run_bind. unfold print at 1.
  rewrite run_bind, (initialize_vocabulary_present _ _ cv) by exact Hvp.
  cbv beta iota.
  rewrite run_bind. unfold gfile_read at 1. cbn [files]. by rewrite Hdp.
Qed.

(** With the digit flag on, the first line read makes the call of the flag
    raise, before anything is written. *)
Lemma data_to_token_ids_flag_on (dp tp vp : string) (w : world)
    (content cv : string) :
  files w !! tp = None ->
  files w !! vp = Some cv ->
  files w !! dp = Some content ->
  gfile_lines content <> [] ->
  data_to_token_ids dp tp vp true w =
  (Raise (TypeError "'bool' object is not callable"),
   World (files w) (stdout w ++ ["Tokenizing data in " +:+ dp])).
Proof.
  intros Htp Hvp Hdp Hne.
  unfold data_to_token_ids.
  rewrite run_bind, (exists_false _ _ Htp). cbn [negb].
  rewrite run_bind. unfold print at 1.
  rewrite run_bind, (initialize_vocabulary_present _ _ cv) by exact Hvp.
  cbv beta iota.
  rewrite run_bind. unfold gfile_read at 1. cbn [files]. rewrite Hdp.
  destruct (gfile_lines content) as [|line rest]; [done|].
  cbn [encode_lines]. rewrite run_bind.
  destruct (decide ((0 + 1) `mod` 100000 = 0)) as [Hmod|_]; [discriminate Hmod|].
  unfold skip at 1, ret at 1. unfold mret, M_ret. cbv beta iota.
  rewrite run_bind. unfold sentence_to_token_ids. cbn [truthy call].
  rewrite run_bind. unfold raise. reflexivity.
Qed.

(** X12. Called with its digit flag on, the file encoder fails on the first
    line that it reads from the data: the flag is called as the tokenizer,
    which raises a TypeError. Nothing is written: the store is as before,
    there is no line of ids at the target and no other file is changed. *)
Theorem data_to_token_ids_flag_on_fails (dp tp vp : string) (w : world)
    (content cv : string) :
  files w !! tp = None ->
  files w !! vp = Some cv ->
  files w !! dp = Some content ->
  gfile_lines content <> [] ->
  exists w',
    data_to_token_ids dp tp vp true w =
      (Raise (TypeError "'bool' object is not callable"), w') /\
    files w' = files w /\
    default "" (files w' !! tp) = "" /\
    forall p, p <> tp -> files w' !! p = files w !! p.
Proof.
  intros Htp Hvp Hdp Hne.
  rewrite (data_to_token_ids_flag_on dp tp vp w content cv Htp Hvp Hdp Hne).
  eexists. split; [reflexivity|]. cbn [files].
  split; [reflexivity|]. split; [by rewrite Htp | done].
Qed.

Lemma data_to_token_ids_flag_on_fails_witness :
  exists w',
    data_to_token_ids "data" "ids" "vocab" true prepared_world =
      (Raise (TypeError "'bool' object is not callable"), w') /\
    files w' = files prepared_world /\
    default "" (files w' !! "ids") = "" /\
    forall p, p <> "ids" -> files w' !! p = files prepared_world !! p.
Proof.
  eapply (data_to_token_ids_flag_on_fails "data" "ids" "vocab" prepared_world).
  - vm_compute. reflexivity.
  - vm_compute. reflexivity.
  - vm_compute. reflexivity.
  - vm_compute. discriminate.
Defined.

(** From a data file that holds carriage returns only no line is read: the
    flag is never called, the call returns and writes no target. *)
Lemma carriage_returns_only_give_no_line :
  let w := World {[ "data" := String "013" (String "013" "");
                    "vocab" := "_PAD" +:+ Py.nl ]} [] in
  gfile_lines (String "013" (String "013" "")) = [] /\
  exists out, data_to_token_ids "data" "ids" "vocab" true w =
              (Return tt, World (files w) out).
Proof. split; [reflexivity|]. eexists. vm_compute. reflexivity. Qed.

(** ** The file encoder: the target is a cache *)

(** The store only grows under the loop of the file encoder. *)
Lemma encode_lines_grows (tp : string) (vocab : gmap string Z) (nd : bool)
    (lines : list string) (counter : Z) (written : bool) (w : world) (p : string) :
  is_Some (files w !! p) ->
  is_Some (files (encode_lines tp vocab nd lines counter written w).2 !! p).
Proof.
  revert counter written w.
  induction lines as [|line lines IH]; intros counter written w Hp.
  - exact Hp.
  - cbn [encode_lines]. rewrite run_bind.
    set (w1 := if decide ((counter + 1) `mod` 100000 = 0)
               then World (files w)
                      (stdout w ++ ["  tokenizing line " +:+ pretty (counter + 1)])
               else w).
    assert (Hw1 : (if decide ((counter + 1) `mod` 100000 = 0)
                   then print ("  tokenizing line " +:+ pretty (counter + 1))
                   else skip) w = (Return tt, w1)).
    { unfold w1. by destruct (decide ((counter + 1) `mod` 100000 = 0)). }
    rewrite Hw1. cbv beta iota.
    assert (Hf : files w1 = files w).
    { unfold w1. by destruct (decide ((counter + 1) `mod` 100000 = 0)). }
    rewrite run_bind. destruct nd.
    + unfold sentence_to_token_ids. cbn [truthy call]. rewrite run_bind.
      unfold raise. cbv beta iota. cbn [snd]. by rewrite Hf.
    + rewrite sentence_to_token_ids_falsy by reflexivity. cbv beta iota.
      rewrite run_bind. unfold gfile_write at 1. cbv beta zeta iota.
      apply IH. cbn [files]. rewrite Hf, lookup_insert.
      destruct (decide (tp = p)); [eauto | exact Hp].
Qed.

(** The file encoder deletes no file, however it ends. *)
Lemma data_to_token_ids_grows (dp tp vp : string) (nd : bool) (w : world)
    (p : string) :
  is_Some (files w !! p) ->
  is_Some (files (data_to_token_ids dp tp vp nd w).2 !! p).
Proof.
  intros Hp.
  destruct (files w !! tp) as [c|] eqn:Htp.
  { by rewrite data_to_token_ids_present by eauto. }
  destruct (files w !! vp) as [cv|] eqn:Hvp.
  2:{ by rewrite data_to_token_ids_no_vocabulary. }
  destruct (files w !! dp) as [content|] eqn:Hdp.
  2:{ by rewrite data_to_token_ids_no_data by eauto. }
  unfold data_to_token_ids.
  rewrite run_bind, (exists_false _ _ Htp). cbn [negb].
  rewrite run_bind. unfold print at 1.
  rewrite run_bind, (initialize_vocabulary_present _ _ cv) by exact Hvp.
  cbv beta iota.
  rewrite run_bind. unfold gfile_read at 1. cbn [files]. rewrite Hdp.
  by apply encode_lines_grows.
Qed.

(** A call that returned after reading at least one line of data has left
    a file at the target. *)
Lemma data_to_token_ids_leaves_target (dp tp vp : string) (nd : bool)
    (w w' : world) (content : string) :
  files w !! dp = Some content -> gfile_lines content <> [] ->
  data_to_token_ids dp tp vp nd w = (Return tt, w') ->
  is_Some (files w' !! tp).
Proof.
  intros Hdp Hne.
  destruct (files w !! tp) as [c|] eqn:Htp.
  { rewrite data_to_token_ids_present by eauto. intros [= <-]. eauto. }
  destruct (files w !! vp) as [cv|] eqn:Hvp.
  2:{ by rewrite data_to_token_ids_no_vocabulary. }
  destruct nd.
  - by rewrite (data_to_token_ids_flag_on dp tp vp w content cv).
  - destruct (data_to_token_ids_fresh dp tp vp w content cv Htp Hdp Hvp)
      as [out ->].
    intros [= <-]. cbn [files]. rewrite written_file_same; [eauto|].
    intros H. by apply fmap_nil_inv in H.
Qed.

(** X13. The target file is a cache by presence: where a file exists at the
    target path, the file encoder returns at once, reads neither the data
    nor the vocabulary, and leaves the files and the output as they are. An
    earlier call that returned has left such a file whenever it read a data
    file with at least one line. *)
Theorem data_to_token_ids_cached (dp tp vp : string) (nd : bool) (w : world) :
  (is_Some (files w !! tp) \/
   exists w0 dp0 vp0 nd0 content0,
     files w0 !! dp0 = Some content0 /\ gfile_lines content0 <> [] /\
     data_to_token_ids dp0 tp vp0 nd0 w0 = (Return tt, w)) ->
  data_to_token_ids dp tp vp nd w = (Return tt, w).
Proof.
  intros [H | (w0 & dp0 & vp0 & nd0 & content0 & Hdp0 & Hne & H)].
  - by apply data_to_token_ids_present.
  - apply data_to_token_ids_present.
    by eapply data_to_token_ids_leaves_target.
Qed.

Lemma data_to_token_ids_cached_witness :
  let w := (data_to_token_ids "data" "ids" "vocab" false prepared_world).2 in
  data_to_token_ids "gone" "ids" "none" true w = (Return tt, w).
Proof.
  apply (data_to_token_ids_cached "gone" "ids" "none" true).
  right.
  exists prepared_world, "data", "vocab", false,
    ("a b a 12" +:+ Py.nl +:+ "c a9, b" +:+ Py.nl).
  split; [vm_compute; reflexivity|].
  split; [vm_compute; discriminate|]. vm_compute. reflexivity.
Defined.

(** ** The format of the token-id file *)

Lemma pretty_N_char_spaceless (x : N) :
  spaceless (String (pretty_N_char x) "") = true.
Proof. unfold pretty_N_char. by repeat case_match. Qed.

Lemma pretty_N_go_spaceless (x : N) (s : string) :
  spaceless s = true -> spaceless (pretty_N_go x s) = true.
Proof.
  revert s. induction (N.lt_wf_0 x) as [x _ IH]; intros s Hs.
  assert (x = 0 \/ 0 < x)%N as [->|Hx] by lia.
  - by rewrite pretty_N_go_0.
  - rewrite pretty_N_go_step by exact Hx. apply IH; [by apply N.div_lt|].
    pose proof (pretty_N_char_spaceless (x `mod` 10)) as Hc.
    cbn [spaceless] in Hc |- *. rewrite andb_true_r in Hc. by rewrite Hc, Hs.
Qed.

Lemma pretty_N_go_nonempty (x : N) (s : string) :
  s <> "" -> pretty_N_go x s <> "".
Proof.
  revert s. induction (N.lt_wf_0 x) as [x _ IH]; intros s Hs.
  assert (x = 0 \/ 0 < x)%N as [->|Hx] by lia.
  - by rewrite pretty_N_go_0.
  - rewrite pretty_N_go_step by exact Hx. apply IH; [by apply N.div_lt | done].
Qed.

Lemma pretty_N_word (x : N) : pretty_N x <> "" /\ spaceless (pretty_N x) = true.
Proof.
  unfold pretty_N. destruct (decide (x = 0%N)) as [->|Hx]; [done|]. split.
  - rewrite pretty_N_go_step by lia. by apply pretty_N_go_nonempty.
  - by apply pretty_N_go_spaceless.
Qed.

(** The decimal form of an integer is one word. *)
Lemma pretty_Z_word (z : Z) : pretty z <> "" /\ spaceless (pretty z) = true.
Proof.
  unfold pretty, pretty_Z. destruct z as [|p|p]; [done| |].
  - apply (pretty_N_word (N.pos p)).
  - destruct (pretty_N_word (N.pos p)) as [Hne Hsp]. split; [done|].
    rewrite spaceless_app. exact Hsp.
Qed.

Lemma encode_normalized_words (vocab : gmap string Z) (line : string) :
  Forall (fun t => t <> "" /\ spaceless t = true)
         (str <$> encode_normalized vocab line).
Proof.
  unfold encode_normalized. destruct (decide (Py.strip line = sentinel)).
  - by repeat constructor.
  - rewrite <- !list_fmap_compose. apply Forall_fmap, Forall_forall.
    intros t _. apply pretty_Z_word.
Qed.

Lemma newline_free_app (a b : string) :
  newline_free (a +:+ b) = newline_free a && newline_free b.
Proof.
  induction a as [|c a IH]; [reflexivity|].
  rewrite app_String. cbn [newline_free]. by rewrite IH, andb_assoc.
Qed.

Lemma spaceless_newline_free (s : string) :
  spaceless s = true -> newline_free s = true.
Proof.
  induction s as [|c s IH]; [done|]. cbn [spaceless newline_free].
  intros H. apply andb_true_iff in H as [Hc Hs]. rewrite IH by exact Hs.
  destruct (Ascii.eqb_spec c Py.newline) as [->|_]; [discriminate Hc | reflexivity].
Qed.

Lemma join_newline_free (l : list string) :
  Forall (fun t => t <> "" /\ spaceless t = true) l ->
  newline_free (Py.join " " l) = true.
Proof.
  induction 1 as [|t l [_ Ht] Hl IH]; [reflexivity|].
  destruct l as [|t' l]; [by apply spaceless_newline_free|].
  change (Py.join " " (t :: t' :: l)) with (t +:+ " " +:+ Py.join " " (t' :: l)).
  rewrite !newline_free_app, IH, spaceless_newline_free by exact Ht. reflexivity.
Qed.

Lemma lines_one_line (x rest : string) :
  newline_free x = true ->
  Py.lines ((x +:+ Py.nl) +:+ rest) = (x +:+ Py.nl) :: Py.lines rest.
Proof.
  induction x as [|c x IH]; [reflexivity|].
  cbn [newline_free]. intros H. apply andb_true_iff in H as [Hc Hx].
  rewrite !app_String. cbn [Py.lines].
  destruct (Ascii.eqb c Py.newline); [discriminate Hc|].
  by rewrite (IH Hx).
Qed.

Lemma lines_ids_lines (vocab : gmap string Z) (lines : list string) :
  Py.lines (Py.concat (ids_line vocab <$> lines)) = ids_line vocab <$> lines.
Proof.
  induction lines as [|line lines IH]; [reflexivity|].
  cbn [fmap list_fmap]. rewrite concat_cons. unfold ids_line at 1 3.
  rewrite lines_one_line
    by apply join_newline_free, encode_normalized_words.
  f_equal. exact IH.
Qed.

Lemma starts_word_app (x y : string) :
  x <> "" -> Py.starts_word (x +:+ y) = Py.starts_word x.
Proof. by destruct x. Qed.

Lemma split_app_space (x : string) (c : ascii) :
  Py.isspace c = true -> Py.split (x +:+ String c "") = Py.split x.
Proof.
  intros Hc. induction x as [|d x IH].
  - rewrite app_empty. cbn [Py.split]. by rewrite Hc.
  - rewrite app_String. cbn [Py.split]. rewrite IH.
    destruct x as [|e x]; [|reflexivity].
    rewrite app_empty. cbn [Py.starts_word Py.split]. by rewrite Hc.
Qed.

Lemma split_ids_line (vocab : gmap string Z) (line : string) :
  Py.split (ids_line vocab line) = str <$> encode_normalized vocab line.
Proof.
  unfold ids_line, Py.nl. rewrite split_app_space by reflexivity.
  apply split_join, encode_normalized_words.
Qed.

Lemma join_drop_cr (l : list string) :
  Forall (fun t => t <> "" /\ spaceless t = true) l ->
  drop_cr (Py.join " " l) = Py.join " " l.
Proof.
  induction 1 as [|t l [_ Ht] Hl IH]; [reflexivity|].
  destruct l as [|t' l]; [by apply drop_cr_spaceless|].
  change (Py.join " " (t :: t' :: l)) with (t +:+ " " +:+ Py.join " " (t' :: l)).
  rewrite !drop_cr_app, IH, drop_cr_spaceless by exact Ht. reflexivity.
Qed.

(** The lines of ids hold no carriage return: the reader of the file yields
    them as they were written. *)
Lemma gfile_lines_ids_lines (vocab : gmap string Z) (lines : list string) :
  gfile_lines (Py.concat (ids_line vocab <$> lines)) = ids_line vocab <$> lines.
Proof.
  unfold gfile_lines.
  assert (H : drop_cr (Py.concat (ids_line vocab <$> lines)) =
              Py.concat (ids_line vocab <$> lines)).
  { induction lines as [|line lines IH]; [reflexivity|].
    cbn [fmap list_fmap]. rewrite concat_cons, drop_cr_app, IH.
    unfold ids_line at 1. rewrite drop_cr_app, join_drop_cr
      by apply encode_normalized_words. reflexivity. }
  rewrite H. apply lines_ids_lines.
Qed.

(** X14. The token-id file that the file encoder writes (flag off, fresh
    target, a data file from which at least one line is read) holds one
    line per line read from the data, and each line, split on whitespace,
    gives back the ids of the tokens of the data line in decimal (for a
    sentinel line, the sentinel itself). *)
Theorem token_id_file_format (dp tp vp : string) (w : world)
    (content : string) (vocab : gmap string Z) (rev_vocab : list string) :
  files w !! tp = None ->
  files w !! dp = Some content ->
  initialize_vocabulary vp w = (Return (vocab, rev_vocab), w) ->
  gfile_lines content <> [] ->
  exists w' out,
    data_to_token_ids dp tp vp false w = (Return tt, w') /\
    files w' !! tp = Some out /\
    length (gfile_lines out) = length (gfile_lines content) /\
    Forall2 (fun line ids_line =>
               exists ids,
                 (forall w0, sentence_to_token_ids line vocab TokNone true w0 =
                             (Return ids, w0)) /\
                 Py.split ids_line = str <$> ids)
            (gfile_lines content) (gfile_lines out).
Proof.
  intros Htp Hdp Hinit Hne.
  destruct (files w !! vp) as [cv|] eqn:Hvp;
    [ | rewrite (initialize_vocabulary_missing _ _ Hvp) in Hinit; discriminate ].
  rewrite (initialize_vocabulary_present _ _ _ Hvp) in Hinit.
  injection Hinit as Hv _. fold (vocab_of (Py.strip <$> gfile_lines cv)) in Hv.
  destruct (data_to_token_ids_fresh dp tp vp w content cv Htp Hdp Hvp) as [out Hrun].
  rewrite Hv in Hrun. eexists _, _. split; [exact Hrun|].
  cbn [files]. split.
  { apply written_file_same. intros H. by apply fmap_nil_inv in H. }
  rewrite gfile_lines_ids_lines. split; [by rewrite length_fmap|].
  apply Forall2_fmap_r, Forall_Forall2_diag, Forall_forall. intros line _.
  exists (encode_normalized vocab line). split.
  - intros w0. by apply sentence_to_token_ids_falsy.
  - apply split_ids_line.
Qed.

Lemma token_id_file_format_witness :
  exists w' out,
    data_to_token_ids "data" "ids" "vocab" false prepared_world = (Return tt, w') /\
    files w' !! "ids" = Some out /\
    length (gfile_lines out) = 2%nat.
Proof.
  destruct (token_id_file_format "data" "ids" "vocab" prepared_world
              ("a b a 12" +:+ Py.nl +:+ "c a9, b" +:+ Py.nl)
              (vocab_of ["_PAD"; "_GO"; "_EOS"; "_UNK"; "a"; "12"])
              ["_PAD"; "_GO"; "_EOS"; "_UNK"; "a"; "12"])
    as (w' & out & Hrun & Hout & Hlen & _);
    [ vm_compute; reflexivity .. | vm_compute; discriminate | ].
  exists w', out. split; [exact Hrun|]. split; [exact Hout|]. exact Hlen.
Defined.

(** ** prepare_data *)

(** The builder deletes no file, however it ends. *)
Lemma create_vocabulary_grows (vp dp : string) (m : Z) (nd : bool) (w : world)
    (p : string) :
  is_Some (files w !! p) ->
  is_Some (files (create_vocabulary vp dp m nd w).2 !! p).
Proof.
  intros Hp. destruct (files w !! vp) as [c|] eqn:Hvp.
  { by rewrite create_vocabulary_present by eauto. }
  destruct (files w !! dp) as [content|] eqn:Hdp.
  - destruct (create_vocabulary_fresh vp dp m nd w content Hvp Hdp) as [out ->].
    cbn [snd files]. by do 2 apply written_file_keeps.
  - by destruct (create_vocabulary_unreadable vp dp m nd w Hvp Hdp) as [out ->].
Qed.

(** The builder touches its two files only. *)
Lemma create_vocabulary_frame (vp dp : string) (m : Z) (nd : bool) (w : world)
    (p : string) :
  p <> vp -> p <> vp +:+ "complete" ->
  files (create_vocabulary vp dp m nd w).2 !! p = files w !! p.
Proof.
  intros H1 H2. destruct (files w !! vp) as [c|] eqn:Hvp.
  { by rewrite create_vocabulary_present by eauto. }
  destruct (files w !! dp) as [content|] eqn:Hdp.
  - destruct (create_vocabulary_fresh vp dp m nd w content Hvp Hdp) as [out ->].
    cbn [snd files]. by rewrite !written_file_other by done.
  - by destruct (create_vocabulary_unreadable vp dp m nd w Hvp Hdp) as [out ->].
Qed.

Lemma encode_lines_frame (tp : string) (vocab : gmap string Z) (nd : bool)
    (lines : list string) (counter : Z) (written : bool) (w : world) (p : string) :
  p <> tp ->
  files (encode_lines tp vocab nd lines counter written w).2 !! p = files w !! p.
Proof.
  intros Hp. revert counter written w.
  induction lines as [|line lines IH]; intros counter written w; [reflexivity|].
  cbn [encode_lines]. rewrite run_bind.
  set (w1 := if decide ((counter + 1) `mod` 100000 = 0)
             then World (files w)
                    (stdout w ++ ["  tokenizing line " +:+ pretty (counter + 1)])
             else w).
  assert (Hw1 : (if decide ((counter + 1) `mod` 100000 = 0)
                 then print ("  tokenizing line " +:+ pretty (counter + 1))
                 else skip) w = (Return tt, w1)).
  { unfold w1. by destruct (decide ((counter + 1) `mod` 100000 = 0)). }
  rewrite Hw1. cbv beta iota.
  assert (Hf : files w1 = files w).
  { unfold w1. by destruct (decide ((counter + 1) `mod` 100000 = 0)). }
  rewrite run_bind. destruct nd.
  - unfold sentence_to_token_ids. cbn [truthy call]. rewrite run_bind.
    unfold raise. cbv beta iota. cbn [snd]. by rewrite Hf.
  - rewrite sentence_to_token_ids_falsy by reflexivity. cbv beta iota.
    rewrite run_bind. unfold gfile_write at 1. cbv beta zeta iota.
    rewrite IH. cbn [files]. by rewrite Hf, lookup_insert_ne.
Qed.

(** The file encoder touches its target only. *)
Lemma data_to_token_ids_frame (dp tp vp : string) (nd : bool) (w : world)
    (p : string) :
  p <> tp -> files (data_to_token_ids dp tp vp nd w).2 !! p = files w !! p.
Proof.
  intros Hp.
  destruct (files w !! tp) as [c|] eqn:Htp.
  { by rewrite data_to_token_ids_present by eauto. }
  destruct (files w !! vp) as [cv|] eqn:Hvp.
  2:{ by rewrite data_to_token_ids_no_vocabulary. }
  destruct (files w !! dp) as [content|] eqn:Hdp.
  2:{ by rewrite data_to_token_ids_no_data by eauto. }
  unfold data_to_token_ids.
  rewrite run_bind, (exists_false _ _ Htp). cbn [negb].
  rewrite run_bind. unfold print at 1.
  rewrite run_bind, (initialize_vocabulary_present _ _ cv) by exact Hvp.
  cbv beta iota.
  rewrite run_bind. unfold gfile_read at 1. cbn [files]. rewrite Hdp.
  by rewrite encode_lines_frame.
Qed.

(** With its data file at hand the builder returns. *)
Lemma create_vocabulary_returns (vp dp : string) (m : Z) (nd : bool) (w : world) :
  is_Some (files w !! dp) ->
  exists w', create_vocabulary vp dp m nd w = (Return tt, w').
Proof.
  intros [content Hdp]. destruct (files w !! vp) as [c|] eqn:Hvp.
  - exists w. apply create_vocabulary_present. eauto.
  - destruct (create_vocabulary_fresh vp dp m nd w content Hvp Hdp) as [out ->].
    eauto.
Qed.

(** With its data file and the vocabulary at hand the file encoder, flag
    off, returns. *)
Lemma data_to_token_ids_returns (dp tp vp : string) (w : world) :
  is_Some (files w !! dp) -> is_Some (files w !! vp) ->
  exists w', data_to_token_ids dp tp vp false w = (Return tt, w').
Proof.
  intros [content Hdp] [cv Hvp]. destruct (files w !! tp) as [c|] eqn:Htp.
  - exists w. apply data_to_token_ids_present. eauto.
  - destruct (data_to_token_ids_fresh dp tp vp w content cv Htp Hdp Hvp) as [out ->].
    eauto.
Qed.

Lemma run_seq {A B} (m : M A) (k : M B) (w w1 : world) (a : A) :
  m w = (Return a, w1) -> (m ;; k) w = k w1.
Proof. intros H. by rewrite run_bind, H. Qed.

(** *** The paths of [prepare_data] are distinct *)

(** A data path is neither the vocabulary path nor a path that starts with
    it: after the directory the former goes on with a separator and a
    capital letter, the latter with the word vocab. *)
Lemma os_path_join_vocab (d n : string) :
  os_path_join d ("vocab" +:+ n) =
  if decide (d = "") then "vocab" +:+ n
  else if ends_with_sep d then d +:+ "vocab" +:+ n
  else d +:+ "/vocab" +:+ n.
Proof.
  unfold os_path_join. rewrite !app_String. cbn [String.prefix].
  destruct (ascii_dec "/" "v") as [E|_]; [discriminate E|].
  destruct (decide (d = "")) as [->|_]; [reflexivity|].
  destruct (ends_with_sep d); reflexivity.
Qed.

Lemma data_path_not_vocab (d x rest n tail : string) (c : ascii) :
  c <> "v"%char ->
  d +:+ String "/" (String c x) +:+ rest <>
  os_path_join d ("vocab" +:+ n) +:+ tail.
Proof.
  intros Hc H. rewrite os_path_join_vocab in H.
  destruct (decide (d = "")) as [->|Hd].
  - change ("" +:+ String "/" (String c x) +:+ rest)
      with (String "/" (String c x) +:+ rest) in H.
    rewrite !app_String in H. discriminate H.
  - destruct (ends_with_sep d);
      rewrite app_assoc_s in H; apply (inj (String.app d)) in H;
      rewrite !app_String in H.
    + discriminate H.
    + injection H as H1 _. by apply Hc.
Qed.

Lemma train_path_not_vocab (d n tail : string) :
  d +:+ "/TRAIN_" +:+ n <> os_path_join d ("vocab" +:+ n) +:+ tail.
Proof. by apply (data_path_not_vocab d "RAIN_" n n tail "T"). Qed.

Lemma dev_path_not_vocab (d n tail : string) :
  d +:+ "/VALIDATION_" +:+ n <> os_path_join d ("vocab" +:+ n) +:+ tail.
Proof. by apply (data_path_not_vocab d "ALIDATION_" n n tail "V"). Qed.

Lemma dev_path_not_train_ids (d n : string) :
  d +:+ "/VALIDATION_" +:+ n <> (d +:+ "/TRAIN_" +:+ n) +:+ ".ids" +:+ n.
Proof.
  intros H. rewrite app_assoc_s in H. apply (inj (String.app d)) in H.
  rewrite !app_String in H. discriminate H.
Qed.

(** The run of [prepare_data] on data files that exist, with a size of at
    least one: the three steps return, and leave the vocabulary and, for a
    data file with a line, its token-id file. *)
Lemma prepare_data_run (data_dir : string) (vocabulary_size : Z) (w : world) :
  let train_path := data_dir +:+ "/TRAIN_" +:+ pretty vocabulary_size in
  let dev_path := data_dir +:+ "/VALIDATION_" +:+ pretty vocabulary_size in
  let vocab_path := os_path_join data_dir ("vocab" +:+ pretty vocabulary_size) in
  let train_ids_path := train_path +:+ ".ids" +:+ pretty vocabulary_size in
  let dev_ids_path := dev_path +:+ ".ids" +:+ pretty vocabulary_size in
  is_Some (files w !! train_path) ->
  is_Some (files w !! dev_path) ->
  1 <= vocabulary_size ->
  exists w',
    prepare_data data_dir vocabulary_size w =
      (Return (train_ids_path, dev_ids_path, vocab_path), w') /\
    is_Some (files w' !! vocab_path) /\
    (forall content, files w !! train_path = Some content ->
       gfile_lines content <> [] -> is_Some (files w' !! train_ids_path)) /\
    (forall content, files w !! dev_path = Some content ->
       gfile_lines content <> [] -> is_Some (files w' !! dev_ids_path)) /\
    forall p, is_Some (files w !! p) -> is_Some (files w' !! p).
Proof.
  intros train_path dev_path vocab_path train_ids_path dev_ids_path Htrain Hdev Hn.
  destruct (create_vocabulary_returns vocab_path train_path vocabulary_size true w Htrain)
    as [w1 H1].
  pose proof (create_vocabulary_grows vocab_path train_path vocabulary_size true w) as G1.
  pose proof (create_vocabulary_frame vocab_path train_path vocabulary_size true w) as F1.
  pose proof (create_vocabulary_leaves_file _ _ _ _ _ _ Hn H1) as V1.
  rewrite H1 in G1, F1. cbn [snd] in G1, F1.
  destruct (data_to_token_ids_returns train_path train_ids_path vocab_path w1
              (G1 _ Htrain) V1) as [w2 H2].
  pose proof (data_to_token_ids_grows train_path train_ids_path vocab_path false w1)
    as G2.
  pose proof (data_to_token_ids_frame train_path train_ids_path vocab_path false w1)
    as F2.
  rewrite H2 in G2, F2. cbn [snd] in G2, F2.
  destruct (data_to_token_ids_returns dev_path dev_ids_path vocab_path w2
              (G2 _ (G1 _ Hdev)) (G2 _ V1)) as [w3 H3].
  pose proof (data_to_token_ids_grows dev_path dev_ids_path vocab_path false w2)
    as G3.
  rewrite H3 in G3. cbn [snd] in G3.
  assert (Ht1 : files w1 !! train_path = files w !! train_path).
  { apply F1.
    - rewrite <- (app_empty_r vocab_path). apply train_path_not_vocab.
    - apply train_path_not_vocab. }
  assert (Hd2 : files w2 !! dev_path = files w !! dev_path).
  { rewrite F2 by apply dev_path_not_train_ids. apply F1.
    - rewrite <- (app_empty_r vocab_path). apply dev_path_not_vocab.
    - apply dev_path_not_vocab. }
  exists w3. split.
  - unfold prepare_data. cbv zeta.
    fold train_path dev_path vocab_path. fold train_ids_path dev_ids_path.
    rewrite (run_seq _ _ _ _ _ H1), (run_seq _ _ _ _ _ H2), (run_seq _ _ _ _ _ H3).
    reflexivity.
  - split; [by apply G3, G2|]. split; [|split].
    + intros content Hc Hne. apply G3.
      eapply data_to_token_ids_leaves_target; [|exact Hne|exact H2].
      by rewrite Ht1.
    + intros content Hc Hne.
      eapply data_to_token_ids_leaves_target; [|exact Hne|exact H3].
      by rewrite Hd2.
    + intros p Hp. by apply G3, G2, G1.
Qed.

(** X15. Where the two data files (TRAIN_n and VALIDATION_n in the data
    directory) exist and the size n is at least one, [prepare_data]
    returns, whatever else the store holds: it returns the paths of the two
    token-id files and of the vocabulary; afterwards the vocabulary exists,
    the token-id file of each data file from which a line is read exists,
    and no file was deleted. *)
Theorem prepare_data_returns (data_dir : string) (vocabulary_size : Z) (w : world) :
  let train_path := data_dir +:+ "/TRAIN_" +:+ pretty vocabulary_size in
  let dev_path := data_dir +:+ "/VALIDATION_" +:+ pretty vocabulary_size in
  let vocab_path := os_path_join data_dir ("vocab" +:+ pretty vocabulary_size) in
  let train_ids_path := train_path +:+ ".ids" +:+ pretty vocabulary_size in
  let dev_ids_path := dev_path +:+ ".ids" +:+ pretty vocabulary_size in
  is_Some (files w !! train_path) ->
  is_Some (files w !! dev_path) ->
  1 <= vocabulary_size ->
  exists w',
    prepare_data data_dir vocabulary_size w =
      (Return (train_ids_path, dev_ids_path, vocab_path), w') /\
    is_Some (files w' !! vocab_path) /\
    (forall content, files w !! train_path = Some content ->
       gfile_lines content <> [] -> is_Some (files w' !! train_ids_path)) /\
    (forall content, files w !! dev_path = Some content ->
       gfile_lines content <> [] -> is_Some (files w' !! dev_ids_path)) /\
    forall p, is_Some (files w !! p) -> is_Some (files w' !! p).
Proof. apply prepare_data_run. Qed.

Lemma prepare_data_returns_witness :
  let w := World {[ "d/TRAIN_8" := "a b a" +:+ Py.nl;
                    "d/VALIDATION_8" := "b c" +:+ Py.nl ]} [] in
  exists w',
    prepare_data "d" 8 w =
      (Return ("d/TRAIN_8.ids8", "d/VALIDATION_8.ids8", "d/vocab8"), w') /\
    is_Some (files w' !! "d/vocab8") /\
    (forall content, files w !! "d/TRAIN_8" = Some content ->
       gfile_lines content <> [] -> is_Some (files w' !! "d/TRAIN_8.ids8")) /\
    (forall content, files w !! "d/VALIDATION_8" = Some content ->
       gfile_lines content <> [] -> is_Some (files w' !! "d/VALIDATION_8.ids8")) /\
    forall p, is_Some (files w !! p) -> is_Some (files w' !! p).
Proof.
  intros w. apply (prepare_data_returns "d" 8 w); [vm_compute; eauto .. | lia].
Defined.

(** X16. [prepare_data] is idempotent where it has something to write: with
    a size of at least one and two data files from which at least one line
    each is read, after a call that returned a second call with the same
    arguments returns the same paths and changes neither a file nor the
    output. *)
Theorem prepare_data_idempotent (data_dir : string) (vocabulary_size : Z)
    (w w' : world) (paths : string * string * string)
    (train_content dev_content : string) :
  1 <= vocabulary_size ->
  files w !! (data_dir +:+ "/TRAIN_" +:+ pretty vocabulary_size)
    = Some train_content ->
  gfile_lines train_content <> [] ->
  files w !! (data_dir +:+ "/VALIDATION_" +:+ pretty vocabulary_size)
    = Some dev_content ->
  gfile_lines dev_content <> [] ->
  prepare_data data_dir vocabulary_size w = (Return paths, w') ->
  prepare_data data_dir vocabulary_size w' = (Return paths, w').
Proof.
  intros Hn Htrain Hne1 Hdev Hne2 H.
  destruct (prepare_data_run data_dir vocabulary_size w)
    as (w3 & Hrun & V & T1 & T2 & _); [eauto | eauto | exact Hn |].
  rewrite Hrun in H. injection H as <- <-.
  specialize (T1 _ Htrain Hne1). specialize (T2 _ Hdev Hne2).
  unfold prepare_data. cbv zeta.
  rewrite (run_seq _ _ w3 w3 tt) by (by apply create_vocabulary_present).
  rewrite (run_seq _ _ w3 w3 tt) by (by apply data_to_token_ids_present).
  rewrite (run_seq _ _ w3 w3 tt) by (by apply data_to_token_ids_present).
  reflexivity.
Qed.

Lemma prepare_data_idempotent_witness :
  let w := World {[ "d/TRAIN_8" := "a b a" +:+ Py.nl;
                    "d/VALIDATION_8" := "b c" +:+ Py.nl ]} [] in
  prepare_data "d" 8 (prepare_data "d" 8 w).2 =
  (Return ("d/TRAIN_8.ids8", "d/VALIDATION_8.ids8", "d/vocab8"),
   (prepare_data "d" 8 w).2).
Proof.
  intros w.
  apply (prepare_data_idempotent "d" 8 w _ _ ("a b a" +:+ Py.nl) ("b c" +:+ Py.nl)).
  - lia.
  - vm_compute. reflexivity.
  - vm_compute. discriminate.
  - vm_compute. reflexivity.
  - vm_compute. discriminate.
  - vm_compute. reflexivity.
Defined.

(** ** The request boundary, with the model loaded *)

Lemma field_nonempty (key : string) (fields : list (string * Server.jvalue))
    (v : Server.jvalue) :
  Server.field key fields = Some v -> fields <> [].
Proof. by destruct fields. Qed.

(** X17. With the model loaded, a request is answered with status 200
    exactly when its body is a JSON object with a message key on which
    [respond] returns; the response then carries what [respond] returned.
    Every other request, the ones sent to [abort(400)] included, ends in the
    handler of the bare [except], with status 500: no request gets 400. *)
Theorem loaded_response_statuses (bot : Server.ChatBot) (b : Server.body) :
  (forall r,
     Server.generate_response (Some bot) b = Server.Response (Some r) 200 <->
     exists fields msg,
       b = Server.Json (Server.JObj fields) /\
       Server.field "message" fields = Some msg /\
       Server.respond bot msg = Some r) /\
  ((exists r, Server.generate_response (Some bot) b = Server.Response (Some r) 200) \/
   Server.status_of (Server.generate_response (Some bot) b) = 500) /\
  Server.status_of (Server.generate_response (Some bot) b) <> 400.
Proof.
  assert (Hobj : forall fields msg,
            Server.field "message" fields = Some msg ->
            Server.generate_response (Some bot) (Server.Json (Server.JObj fields)) =
            match Server.respond bot msg with
            | Some r => Server.Response (Some r) 200
            | None => Server.Unhandled Server.PyTypeError
            end).
  { intros fields msg Hf. unfold Server.generate_response, Server.try_respond.
    pose proof (field_nonempty _ _ _ Hf) as Hne.
    destruct fields as [|f fields]; [done|]. cbn [Server.jtruthy negb].
    cbn [Server.has_message]. rewrite Hf.
    rewrite bool_decide_eq_true_2 by eauto.
    by destruct (Server.respond bot msg). }
  assert (Hcases :
    (exists fields msg r,
        b = Server.Json (Server.JObj fields) /\
        Server.field "message" fields = Some msg /\
        Server.respond bot msg = Some r /\
        Server.generate_response (Some bot) b = Server.Response (Some r) 200) \/
    Server.generate_response (Some bot) b = Server.Unhandled Server.PyTypeError).
  { destruct b as [| |v]; [by right | by right |].
    destruct v as [|bb|z|s|l|fields];
      try (right; unfold Server.generate_response, Server.try_respond;
           by repeat case_match).
    destruct (Server.field "message" fields) as [msg|] eqn:Hf.
    - rewrite (Hobj _ _ Hf).
      destruct (Server.respond bot msg) as [r|] eqn:Hr; [|by right].
      left. by exists fields, msg, r.
    - right. unfold Server.generate_response, Server.try_respond.
      cbn [Server.has_message]. rewrite Hf.
      rewrite bool_decide_eq_false_2 by (by intros [? ?]).
      by destruct (negb _). }
  split; [|split].
  - intros r. split.
    + intros Hr. destruct Hcases as [(fields & msg & r' & -> & Hf & Hresp & Hgen) | Hun].
      * rewrite Hgen in Hr. injection Hr as ->. by exists fields, msg.
      * rewrite Hun in Hr. discriminate.
    + intros (fields & msg & -> & Hf & Hresp). by rewrite (Hobj _ _ Hf), Hresp.
  - destruct Hcases as [(fields & msg & r & _ & _ & _ & Hgen) | Hun].
    + left. eauto.
    + right. by rewrite Hun.
  - destruct Hcases as [(fields & msg & r & _ & _ & _ & Hgen) | Hun].
    + by rewrite Hgen.
    + by rewrite Hun.
Qed.

(** X18. The model is loaded once: [initialize] sets the global when it is
    empty and never replaces it, so from the first load on every request is
    answered by the first loaded object, whatever loads follow. *)
Theorem first_load_serves (bot : Server.ChatBot) (events : list Server.event) :
  (forall later, Server.initialize later (Server.initialize bot None) = Some bot) /\
  Server.serve (Server.Loaded bot :: events) None =
    Server.generate_response (Some bot) <$> requests_of events.
Proof.
  split; [reflexivity|]. cbn [Server.serve Server.initialize].
  induction events as [|[later|b] events IH]; cbn [Server.serve requests_of].
  - reflexivity.
  - exact IH.
  - cbn [fmap list_fmap]. f_equal. exact IH.
Qed.

(** ** Further edge behaviour of the builder *)

(** X19. The builder does not skip a sentinel line: the tokenizer hands it
    the bare string, the loop iterates over its characters, and the line is
    counted as fifteen one-letter words, nine of them distinct. *)
Theorem sentinel_line_counted_by_letter (nd : bool) (line : string) (w : world) :
  Py.strip line = sentinel ->
  count_lines nd [line] 0 [] w =
  (Return [("b", 1); ("r", 2); ("e", 5); ("a", 2); ("k", 1); ("H", 1);
           ("P", 1); ("l", 1); ("s", 1)], w).
Proof.
  intros Hs. cbn [count_lines]. rewrite run_bind.
  destruct (decide ((0 + 1) `mod` 100000 = 0)) as [Hmod|_]; [discriminate Hmod|].
  unfold skip at 1, ret at 1. unfold mret, M_ret. cbv beta iota.
  unfold basic_tokenizer. rewrite decide_True by exact Hs. rewrite Hs.
  by destruct nd.
Qed.

Lemma sentinel_line_counted_by_letter_witness :
  count_lines true [" breakHerePlease" +:+ Py.nl] 0 [] (World ∅ []) =
  (Return [("b", 1); ("r", 2); ("e", 5); ("a", 2); ("k", 1); ("H", 1);
           ("P", 1); ("l", 1); ("s", 1)], World ∅ []).
Proof.
  apply (sentinel_line_counted_by_letter true). reflexivity.
Defined.


